(** * A 4-digit 7-segment display driven through a 74HC595 shift register

    Shallow embedding of the two firmware variants of the repository,
    [src/main.cpp] (stopwatch only) and [src/Task2/main.cpp] (stopwatch
    and voltage read-out), and the properties of their display protocol
    and of their minutes:seconds counter.

    The firmware talks to the outside world through three output pins and
    a sleep call.  Every procedure is embedded as a computation that
    returns the ordered list of pin writes and sleeps it performs, or
    stops at an array read whose index is outside the array. *)

From Stdlib Require Import ZArith List Bool Lia.
Import ListNotations.

Local Open Scope Z_scope.

(** ** Machine integers *)

(** [static_cast<uint8_t>(z)] and every store into a [uint8_t]. *)
Definition uint8 (z : Z) : Z := z mod 256.

(** A value of type [int] (32 bits on the target), two's complement. *)
Definition int32 (z : Z) : Z := (z + 2 ^ 31) mod 2 ^ 32 - 2 ^ 31.

Definition is_uint8 (z : Z) : Prop := 0 <= z < 256.
Definition is_int32 (z : Z) : Prop := - 2 ^ 31 <= z < 2 ^ 31.

(** ** Output events *)

(** The three [DigitalOut] objects of both files. *)
Inductive Pin : Set := latchPin | clockPin | dataPin.

(** What the board can observe: an assignment [pin = level], or a call
    [ThisThread::sleep_for(ms)]. *)
Inductive Event : Set :=
| Drive (pin : Pin) (level : Z)
| SleepFor (ms : Z).

Definition Trace : Set := list Event.

Definition Pin_eqb (p q : Pin) : bool :=
  match p, q with
  | latchPin, latchPin | clockPin, clockPin | dataPin, dataPin => true
  | _, _ => false
  end.

(** ** The monad of firmware procedures *)

(** A procedure either returns a value after the events [trace], or reads
    an array at [index] outside its bounds, which C++ leaves undefined. *)
Inductive Outcome (A : Type) : Type :=
| Returns (a : A) (trace : Trace)
| OutOfBounds (index : Z).

Arguments Returns {A} a trace.
Arguments OutOfBounds {A} index.

Definition M (A : Type) : Type := Outcome A.

Definition ret {A} (a : A) : M A := Returns a [].

Definition bind {A B} (m : M A) (k : A -> M B) : M B :=
  match m with
  | Returns a t1 =>
      match k a with
      | Returns b t2 => Returns b (t1 ++ t2)
      | OutOfBounds i => OutOfBounds i
      end
  | OutOfBounds i => OutOfBounds i
  end.

Notation "x <- m ;; k" := (bind m (fun x => k))
  (at level 61, m at next level, right associativity).
Notation "m ;; k" := (bind m (fun _ => k))
  (at level 61, right associativity).

(** [pin = level;] *)
Definition drive (pin : Pin) (level : Z) : M unit := Returns tt [Drive pin level].

(** [ThisThread::sleep_for(ms);] *)
Definition sleep_for (ms : Z) : M unit := Returns tt [SleepFor ms].

(** [arr[i]] for a C array held as a list. *)
Definition read (arr : list Z) (i : Z) : M Z :=
  if i <? 0 then OutOfBounds i
  else match nth_error arr (Z.to_nat i) with
       | Some v => ret v
       | None => OutOfBounds i
       end.

(** ** Constant tables (the same text in both files) *)

Definition digitPattern : list Z :=
  [ uint8 (Z.lnot 0x3F);
    uint8 (Z.lnot 0x06);
    uint8 (Z.lnot 0x5B);
    uint8 (Z.lnot 0x4F);
    uint8 (Z.lnot 0x66);
    uint8 (Z.lnot 0x6D);
    uint8 (Z.lnot 0x7D);
    uint8 (Z.lnot 0x07);
    uint8 (Z.lnot 0x7F);
    uint8 (Z.lnot 0x6F) ].

Definition digitPos : list Z := [0x01; 0x02; 0x04; 0x08].

(** ** The shift register writer (the same text in both files) *)

(** [(value & (1 << i)) ? 1 : 0] *)
Definition bitAt (value i : Z) : Z :=
  if Z.land value (Z.shiftl 1 i) =? 0 then 0 else 1.

(** The body of [for (int i = 7; i >= 0; i--)], entered with
    [i = n - 1]: [n] iterations remain. *)
Fixpoint shiftOutFrom (n : nat) (value : Z) : M unit :=
  match n with
  | O => ret tt
  | S i =>
      drive dataPin (bitAt value (Z.of_nat i)) ;;
      drive clockPin 1 ;;
      drive clockPin 0 ;;
      shiftOutFrom i value
  end.

Definition shiftOutMSBFirst (value : Z) : M unit := shiftOutFrom 8 value.

Definition writeToShiftRegister (segments digit : Z) : M unit :=
  drive latchPin 0 ;;
  shiftOutMSBFirst segments ;;
  shiftOutMSBFirst digit ;;
  drive latchPin 1.

(** The initialiser of [int digits[4]] (the same text in both files).
    [/] and [%] on [int] truncate toward zero. *)
Definition digitsOf (number : Z) : list Z :=
  [ Z.rem (Z.quot number 1000) 10;
    Z.rem (Z.quot number 100) 10;
    Z.rem (Z.quot number 10) 10;
    Z.rem number 10 ].

(** ** The stopwatch state *)

(** The two [volatile int] globals. *)
Record Time : Set := mkTime { seconds : Z; minutes : Z }.

(** [int] addition, [x + y] and [x++]; a sum outside the range wraps
    around, as the target machine does. *)
Definition int_add (x y : Z) : Z := int32 (x + y).

(** [int] multiplication. *)
Definition int_mul (x y : Z) : Z := int32 (x * y).

(** The reset branch of both main loops: both counters are set to 0. *)
Definition reset (t : Time) : Time := mkTime 0 0.

(** The argument both main loops pass to [displayNumber] for the timer:
    [minutes * 100 + seconds]. *)
Definition timeDisplay (t : Time) : Z :=
  int_add (int_mul (minutes t) 100) (seconds t).

(** ** src/main.cpp *)
Module Main.

Definition updateTime (t : Time) : Time :=
  let seconds := int_add (seconds t) 1 in
  if 60 <=? seconds then
    let seconds := 0 in
    let minutes := int_add (minutes t) 1 in
    if 100 <=? minutes then mkTime seconds 0
    else mkTime seconds minutes
  else mkTime seconds (minutes t).

(** The body of [for (int i = 0; i < 4; i++)], entered at index [i] with
    [remaining = 4 - i] iterations to go. *)
Fixpoint displayLoop (remaining : nat) (i : Z) (digits : list Z) : M unit :=
  match remaining with
  | O => ret tt
  | S r =>
      d <- read digits i ;;
      segments <- read digitPattern d ;;
      digit <- read digitPos i ;;
      writeToShiftRegister segments digit ;;
      sleep_for 2 ;;
      displayLoop r (i + 1) digits
  end.

Definition displayNumber (number : Z) : M unit :=
  displayLoop 4 0 (digitsOf number).

(** One turn of [while(1)] in [main].  [s1] is the level read on the
    reset button (active low: [!s1] holds when it reads 0); [t] holds the
    two counters when the turn starts, the result holds them when it
    ends.  The timer callback is taken to run between turns. *)
Definition mainLoopTurn (s1 : Z) (t : Time) : M Time :=
  t <- (if s1 =? 0
        then (let t := reset t in sleep_for 200 ;; ret t)
        else ret t) ;;
  displayNumber (timeDisplay t) ;;
  ret t.

End Main.

(** ** src/Task2/main.cpp *)
Module Task2.

Definition updateTime (t : Time) : Time :=
  let seconds := int_add (seconds t) 1 in
  if 60 <=? seconds then
    mkTime 0 (Z.rem (int_add (minutes t) 1) 100)
  else mkTime seconds (minutes t).

(** [pattern &= ~0x80;] on a [uint8_t]. *)
Definition clearDecimalPoint (pattern : Z) : Z :=
  uint8 (Z.land pattern (Z.lnot 0x80)).

(** The first two statements of the display loop: the table look-up and
    the conditional decimal point.  [decimalOn] is the value of
    [showDecimal && i == decimalPos]. *)
Definition encode (digit : Z) (decimalOn : bool) : M Z :=
  pattern <- read digitPattern digit ;;
  ret (if decimalOn then clearDecimalPoint pattern else pattern).

Fixpoint displayLoop (remaining : nat) (i : Z) (digits : list Z)
    (showDecimal : bool) (decimalPos : Z) : M unit :=
  match remaining with
  | O => ret tt
  | S r =>
      d <- read digits i ;;
      pattern <- encode d (showDecimal && (i =? decimalPos)) ;;
      digit <- read digitPos i ;;
      writeToShiftRegister pattern digit ;;
      sleep_for 2 ;;
      displayLoop r (i + 1) digits showDecimal decimalPos
  end.

Definition displayNumber (number : Z) (showDecimal : bool) (decimalPos : Z)
    : M unit :=
  displayLoop 4 0 (digitsOf number) showDecimal decimalPos.

(** The call [displayNumber(number)] with the default arguments
    [showDecimal = false, decimalPos = -1]. *)
Definition displayNumberDefault (number : Z) : M unit :=
  displayNumber number false (-1).

(** One turn of [while (1)] in [main].  [s1] and [s3] are the levels read
    on the two buttons (active low).  The potentiometer sample and the
    arithmetic on it are floating point: their result
    [static_cast<int>(voltage * 100)] is the input [voltageScaled], and
    the two globals [minVoltage] and [maxVoltage], which nothing reads
    back, are left out. *)
Definition mainLoopTurn (s1 s3 : Z) (voltageScaled : Z) (t : Time) : M Time :=
  t <- (if s1 =? 0
        then (let t := reset t in sleep_for 200 ;; ret t)
        else ret t) ;;
  (if s3 =? 0
   then displayNumber voltageScaled true 1
   else (let timeDisplay := timeDisplay t in displayNumberDefault timeDisplay)) ;;
  ret t.

End Task2.

(** ** What the shift register sees *)

(** The serial protocol in the words of the specification: for each bit
    position 7 down to 0, the data line takes the value of that bit, then
    the clock line is raised and lowered. *)
Definition bitPositions : list Z := [7; 6; 5; 4; 3; 2; 1; 0].

Definition sendBit (b position : Z) : Trace :=
  [ Drive dataPin (Z.b2z (Z.testbit b position));
    Drive clockPin 1;
    Drive clockPin 0 ].

Definition serialBits (b : Z) : Trace :=
  flat_map (sendBit b) bitPositions.

(** One frame: latch low, segment byte, digit-select byte, latch high. *)
Definition frame (segments digit : Z) : Trace :=
  Drive latchPin 0 :: serialBits segments ++ serialBits digit ++ [Drive latchPin 1].

(** One sweep over the display: a frame and the 2 ms dwell per write. *)
Definition sweep (writes : list (Z * Z)) : Trace :=
  flat_map (fun w => frame (fst w) (snd w) ++ [SleepFor 2]) writes.

(** The register shifts in the level of the data line on each rising edge
    of the clock line.  [clockedBits data clock t] lists the levels shifted
    in during [t], oldest first, when the lines start at [data] and
    [clock]. *)
Fixpoint clockedBits (data clock : Z) (t : Trace) : list Z :=
  match t with
  | [] => []
  | Drive dataPin level :: t' => clockedBits level clock t'
  | Drive clockPin level :: t' =>
      if (clock =? 0) && negb (level =? 0)
      then data :: clockedBits data level t'
      else clockedBits data level t'
  | _ :: t' => clockedBits data clock t'
  end.

(** Reading a list of bits as a number, most significant bit first. *)
Definition assembleMSBFirst (bits : list Z) : Z :=
  fold_left (fun acc bit => 2 * acc + bit) bits 0.

(** The events that touch a given pin. *)
Definition onPin (p : Pin) (e : Event) : bool :=
  match e with
  | Drive q _ => Pin_eqb p q
  | SleepFor _ => false
  end.

(** The bits of [b] at positions 7 down to 0. *)
Definition bitsMSBFirst (b : Z) : list Z :=
  map (fun position => Z.b2z (Z.testbit b position)) bitPositions.

(** The table entry for a digit, as a total function ([0] outside the
    table). *)
Definition patternOf (d : Z) : Z := nth (Z.to_nat d) digitPattern 0.

Definition isDigit (d : Z) : Prop := 0 <= d <= 9.

(** The clock pulses of a trace: the writes to the clock line. *)
Definition clockEvents (t : Trace) : Trace := filter (onPin clockPin) t.

Definition pulse : Trace := [Drive clockPin 1; Drive clockPin 0].

(** What follows a computation that returns. *)
Definition after {A} (t : Trace) (m : M A) : M A :=
  match m with
  | Returns a t' => Returns a (t ++ t')
  | OutOfBounds j => OutOfBounds j
  end.

(** The pattern written for a digit, with or without the decimal point. *)
Definition rendered (d : Z) (decimalOn : bool) : Z :=
  if decimalOn then Task2.clearDecimalPoint (patternOf d) else patternOf d.

(** ** The external register *)

(** The two cascaded 8-bit shift registers with output latch that the
    pins drive: the level of the data line is shifted in on a rising edge
    of the clock line, and the last 16 bits appear on the outputs on a
    rising edge of the latch line.  [shifted] holds the bits clocked in,
    newest first. *)
Record Register : Set := mkRegister {
  dataLine : Z;
  clockLine : Z;
  latchLine : Z;
  shifted : list Z
}.

(** All [DigitalOut] lines start low. *)
Definition powerOn : Register := mkRegister 0 0 0 [].

Definition risingEdge (before after : Z) : bool :=
  negb (after =? 0) && (before =? 0).

(** The two output bytes: the byte sent first (segments) and the byte
    sent last (digit select). *)
Definition outputs (r : Register) : Z * Z :=
  (assembleMSBFirst (rev (firstn 8 (skipn 8 (shifted r)))),
   assembleMSBFirst (rev (firstn 8 (shifted r)))).

Definition registerStep (r : Register) (e : Event) : Register :=
  match e with
  | Drive dataPin level =>
      mkRegister level (clockLine r) (latchLine r) (shifted r)
  | Drive clockPin level =>
      mkRegister (dataLine r) level (latchLine r)
        (if risingEdge (clockLine r) level
         then dataLine r :: shifted r else shifted r)
  | Drive latchPin level =>
      mkRegister (dataLine r) (clockLine r) level (shifted r)
  | SleepFor _ => r
  end.

(** The byte pairs that appear on the outputs during a trace, in order. *)
Fixpoint latched (r : Register) (t : Trace) : list (Z * Z) :=
  match t with
  | [] => []
  | e :: t' =>
      match e with
      | Drive latchPin level =>
          if risingEdge (latchLine r) level
          then outputs r :: latched (registerStep r e) t'
          else latched (registerStep r e) t'
      | _ => latched (registerStep r e) t'
      end
  end.

(** A write whose two arguments are bytes. *)
Definition isWrite (w : Z * Z) : Prop := is_uint8 (fst w) /\ is_uint8 (snd w).

(** ** The seven segments *)

(** Bit 0 is segment A, ..., bit 6 is segment G, bit 7 the decimal point;
    a lit segment is a cleared bit. *)
Inductive Segment : Set := SegA | SegB | SegC | SegD | SegE | SegF | SegG.

Definition segmentBit (s : Segment) : Z :=
  match s with
  | SegA => 0 | SegB => 1 | SegC => 2 | SegD => 3
  | SegE => 4 | SegF => 5 | SegG => 6
  end.

Definition decimalPointBit : Z := 7.

(** The usual shape of each decimal digit: is segment [s] lit? *)
Definition litIn (d : Z) (s : Segment) : bool :=
  match d, s with
  | 0, SegG => false
  | 0, _ => true
  | 1, (SegB | SegC) => true
  | 1, _ => false
  | 2, (SegC | SegF) => false
  | 2, _ => true
  | 3, (SegE | SegF) => false
  | 3, _ => true
  | 4, (SegA | SegD | SegE) => false
  | 4, _ => true
  | 5, (SegB | SegE) => false
  | 5, _ => true
  | 6, SegB => false
  | 6, _ => true
  | 7, (SegA | SegB | SegC) => true
  | 7, _ => false
  | 8, _ => true
  | 9, SegE => false
  | 9, _ => true
  | _, _ => false
  end.

Definition allSegments : list Segment :=
  [SegA; SegB; SegC; SegD; SegE; SegF; SegG].

(** The usual common-cathode byte of a digit: bit set = segment lit. *)
Definition commonCathode (d : Z) : Z :=
  fold_right (fun s acc => if litIn d s then Z.setbit acc (segmentBit s) else acc)
             0 allSegments.

(** ** Runs of the stopwatch *)

Definition startTime : Time := mkTime 0 0.

(** [n] calls of the timer callback [tick]. *)
Definition ticks (tick : Time -> Time) (n : N) (t : Time) : Time :=
  N.iter n tick t.

(** The states the counters can take: the timer callback and the reset
    branch of the main loop run one at a time, in any order. *)
Inductive Reachable (tick : Time -> Time) : Time -> Prop :=
| reach_start : Reachable tick startTime
| reach_tick (t : Time) : Reachable tick t -> Reachable tick (tick t)
| reach_reset (t : Time) : Reachable tick t -> Reachable tick (reset t).

Definition inRange (t : Time) : Prop :=
  0 <= seconds t <= 59 /\ 0 <= minutes t <= 99.

(** The tick rule in the words of the specification: seconds roll over
    after 59 and carry into minutes, minutes wrap to 0 after 99. *)
Definition tickRule (t : Time) : Time :=
  if seconds t =? 59
  then mkTime 0 (if minutes t =? 99 then 0 else minutes t + 1)
  else mkTime (seconds t + 1) (minutes t).

(** ** Elapsed seconds *)

(** The number of seconds a stopwatch state stands for, and back. *)
Definition countOf (t : Time) : Z := minutes t * 60 + seconds t.

Definition ofCount (c : Z) : Time :=
  {| seconds := c mod 60; minutes := (c / 60) mod 100 |}.

(** ** Runs of the whole program *)

(** What happens to the firmware of src/main.cpp: the timer fires, or the
    main loop makes a turn with the reset button at some level. *)
Inductive Input : Set :=
| TimerTick
| LoopTurn (s1 : Z).

Fixpoint run (inputs : list Input) (t : Time) : M Time :=
  match inputs with
  | [] => ret t
  | TimerTick :: rest => run rest (Main.updateTime t)
  | LoopTurn s1 :: rest => t' <- Main.mainLoopTurn s1 t ;; run rest t'
  end.

(** ** Measures on traces *)

(** The time a trace sleeps, in milliseconds. *)
Fixpoint duration (t : Trace) : Z :=
  match t with
  | [] => 0
  | SleepFor ms :: t' => ms + duration t'
  | Drive _ _ :: t' => duration t'
  end.

(** [clocksUnderLowLatch latch t]: every write to the clock line in [t]
    happens while the latch line, which starts at [latch], is low. *)
Fixpoint clocksUnderLowLatch (latch : Z) (t : Trace) : bool :=
  match t with
  | [] => true
  | Drive latchPin level :: t' => clocksUnderLowLatch level t'
  | Drive clockPin _ :: t' => (latch =? 0) && clocksUnderLowLatch latch t'
  | _ :: t' => clocksUnderLowLatch latch t'
  end.

(** The level of the latch line after a trace. *)
Fixpoint latchAfter (latch : Z) (t : Trace) : Z :=
  match t with
  | [] => latch
  | Drive latchPin level :: t' => latchAfter level t'
  | _ :: t' => latchAfter latch t'
  end.

(** ** Digits *)

(** The test that a table index passes when it is a decimal digit. *)
Definition isDigitb (d : Z) : bool := (0 <=? d) && (d <=? 9).

(** Reading a list of digits as a number, most significant first. *)
Definition valueOf (digits : list Z) : Z :=
  fold_left (fun acc d => 10 * acc + d) digits 0.

(** The four segment bytes of a sweep of the second variant. *)
Definition patternsOf (digits : list Z) (showDecimal : bool) (decimalPos : Z)
    : list Z :=
  map (fun id => rendered (snd id) (showDecimal && (fst id =? decimalPos)))
      (combine [0; 1; 2; 3] digits).

(** * Properties *)

(** ** Machine integers and bits *)

Lemma int32_id (z : Z) : is_int32 z -> int32 z = z.
Proof.
  unfold is_int32, int32. intros H.
  rewrite Z.mod_small; lia.
Qed.

Lemma land_pow2 (a i : Z) :
  0 <= i -> Z.land a (2 ^ i) = if Z.testbit a i then 2 ^ i else 0.
Proof.
  intros Hi. apply Z.bits_inj'. intros m Hm.
  rewrite Z.land_spec, Z.pow2_bits_eqb by assumption.
  destruct (Z.eqb_spec i m) as [->|Hne].
  - destruct (Z.testbit a m) eqn:E; cbn.
    + now rewrite Z.pow2_bits_true.
    + now rewrite Z.bits_0.
  - rewrite andb_false_r.
    destruct (Z.testbit a i).
    + now rewrite Z.pow2_bits_false.
    + now rewrite Z.bits_0.
Qed.

(** The mask test of the firmware reads the bit at position [i]. *)
Lemma bitAt_testbit (value i : Z) :
  0 <= i -> bitAt value i = Z.b2z (Z.testbit value i).
Proof.
  intros Hi. unfold bitAt.
  rewrite Z.shiftl_1_l, land_pow2 by assumption.
  destruct (Z.testbit value i); cbn.
  - destruct (Z.eqb_spec (2 ^ i) 0) as [E|_]; [|reflexivity].
    pose proof (Z.pow_pos_nonneg 2 i). lia.
  - reflexivity.
Qed.

(** ** The serial writer *)

Lemma shiftOutMSBFirst_trace (b : Z) :
  shiftOutMSBFirst b = Returns tt (serialBits b).
Proof.
  unfold shiftOutMSBFirst, serialBits, bitPositions, sendBit.
  cbn [shiftOutFrom flat_map bind drive ret app Z.of_nat Pos.of_succ_nat Pos.succ].
  rewrite !bitAt_testbit by lia.
  reflexivity.
Qed.

Lemma clockedBits_serialBits (b data : Z) :
  clockedBits data 0 (serialBits b) = bitsMSBFirst b.
Proof. reflexivity. Qed.

Lemma assemble_bitsMSBFirst (b : Z) :
  assembleMSBFirst (bitsMSBFirst b) = b mod 256.
Proof.
  unfold assembleMSBFirst, bitsMSBFirst, bitPositions.
  cbn [map fold_left].
  rewrite !Z.testbit_spec' by lia.
  change (2 ^ 0) with 1; change (2 ^ 1) with 2; change (2 ^ 2) with 4;
  change (2 ^ 3) with 8; change (2 ^ 4) with 16; change (2 ^ 5) with 32;
  change (2 ^ 6) with 64; change (2 ^ 7) with 128.
  Z.div_mod_to_equations; lia.
Qed.

(** ** The stopwatch *)

Lemma small_is_int32 (z : Z) : -1000 <= z <= 10000 -> is_int32 z.
Proof. unfold is_int32. lia. Qed.

Lemma Main_updateTime_rule (t : Time) :
  inRange t -> Main.updateTime t = tickRule t.
Proof.
  destruct t as [s m]. unfold inRange, Main.updateTime, tickRule, int_add.
  cbn [seconds minutes]. intros [Hs Hm].
  rewrite !int32_id by (apply small_is_int32; lia).
  destruct (Z.eqb_spec s 59) as [->|Hs59].
  - cbn. destruct (Z.eqb_spec m 99) as [->|Hm99]; [reflexivity|].
    destruct (Z.leb_spec 100 (m + 1)); [lia|reflexivity].
  - destruct (Z.leb_spec 60 (s + 1)); [lia|reflexivity].
Qed.

Lemma Task2_updateTime_rule (t : Time) :
  inRange t -> Task2.updateTime t = tickRule t.
Proof.
  destruct t as [s m]. unfold inRange, Task2.updateTime, tickRule, int_add.
  cbn [seconds minutes]. intros [Hs Hm].
  rewrite !int32_id by (apply small_is_int32; lia).
  destruct (Z.eqb_spec s 59) as [->|Hs59].
  - cbn. destruct (Z.eqb_spec m 99) as [->|Hm99]; [reflexivity|].
    rewrite Z.rem_small by lia. reflexivity.
  - destruct (Z.leb_spec 60 (s + 1)); [lia|reflexivity].
Qed.

Lemma tickRule_inRange (t : Time) : inRange t -> inRange (tickRule t).
Proof.
  destruct t as [s m]. unfold inRange, tickRule. cbn [seconds minutes].
  intros [Hs Hm].
  destruct (Z.eqb_spec s 59); cbn [seconds minutes];
    [destruct (Z.eqb_spec m 99)|]; lia.
Qed.

Lemma timeDisplay_inRange (t : Time) :
  inRange t ->
  timeDisplay t = minutes t * 100 + seconds t /\ 0 <= timeDisplay t <= 9959.
Proof.
  unfold inRange, timeDisplay, int_add, int_mul. intros [Hs Hm].
  rewrite (int32_id (minutes t * 100)) by (apply small_is_int32; lia).
  rewrite int32_id by (apply small_is_int32; lia).
  lia.
Qed.

(** An invariant of [tick] that holds at the start holds in every
    reachable state. *)
Lemma Reachable_invariant (tick : Time -> Time) (P : Time -> Prop) :
  P startTime ->
  (forall t, P t -> P (tick t)) ->
  (forall t, P t -> P (reset t)) ->
  forall t, Reachable tick t -> P t.
Proof.
  intros Hstart Htick Hreset t Hreach.
  induction Hreach; auto.
Qed.

Lemma startTime_inRange : inRange startTime.
Proof. unfold inRange, startTime. cbn. lia. Qed.

Lemma Main_Reachable_inRange (t : Time) :
  Reachable Main.updateTime t -> inRange t.
Proof.
  apply Reachable_invariant.
  - exact startTime_inRange.
  - intros u Hu. rewrite Main_updateTime_rule by exact Hu.
    now apply tickRule_inRange.
  - intros u _. exact startTime_inRange.
Qed.

Lemma Task2_Reachable_inRange (t : Time) :
  Reachable Task2.updateTime t -> inRange t.
Proof.
  apply Reachable_invariant.
  - exact startTime_inRange.
  - intros u Hu. rewrite Task2_updateTime_rule by exact Hu.
    now apply tickRule_inRange.
  - intros u _. exact startTime_inRange.
Qed.

(** C5: from (minutes, seconds) = (0, 0), 60 ticks give (1, 0), 5999 ticks
    give (99, 59), and the 6000th tick gives (0, 0) again; in both
    variants of [updateTime]. *)
Theorem stopwatch_ticks_60_5999_6000 :
  (ticks Main.updateTime 60%N startTime = {| seconds := 0; minutes := 1 |} /\
   ticks Main.updateTime 5999%N startTime = {| seconds := 59; minutes := 99 |} /\
   Main.updateTime (ticks Main.updateTime 5999%N startTime) = {| seconds := 0; minutes := 0 |} /\
   ticks Main.updateTime 6000%N startTime = {| seconds := 0; minutes := 0 |}) /\
  (ticks Task2.updateTime 60%N startTime = {| seconds := 0; minutes := 1 |} /\
   ticks Task2.updateTime 5999%N startTime = {| seconds := 59; minutes := 99 |} /\
   Task2.updateTime (ticks Task2.updateTime 5999%N startTime) = {| seconds := 0; minutes := 0 |} /\
   ticks Task2.updateTime 6000%N startTime = {| seconds := 0; minutes := 0 |}).
Proof. repeat split; vm_compute; reflexivity. Qed.

(** C9: on every state with seconds in [0,59] and minutes in [0,99] the
    two variants of [updateTime] give the same next state, which is the
    one of the rule "seconds carry into minutes after 59, minutes wrap
    to 0 after 99". *)
Theorem updateTime_variants_agree (t : Time) :
  0 <= seconds t <= 59 ->
  0 <= minutes t <= 99 ->
  Main.updateTime t = Task2.updateTime t /\
  Main.updateTime t = tickRule t /\
  (minutes t = 99 -> seconds t = 59 -> Main.updateTime t = {| seconds := 0; minutes := 0 |}).
Proof.
  intros Hs Hm.
  assert (Hr : inRange t) by (split; assumption).
  rewrite Main_updateTime_rule, Task2_updateTime_rule by exact Hr.
  repeat split.
  intros H99 H59. unfold tickRule. rewrite H99, H59. reflexivity.
Qed.

Lemma updateTime_variants_agree_witness :
  Main.updateTime ({| seconds := 59; minutes := 99 |}) = Task2.updateTime ({| seconds := 59; minutes := 99 |}) /\
  Main.updateTime ({| seconds := 59; minutes := 99 |}) = tickRule ({| seconds := 59; minutes := 99 |}) /\
  (minutes ({| seconds := 59; minutes := 99 |}) = 99 -> seconds ({| seconds := 59; minutes := 99 |}) = 59 ->
   Main.updateTime ({| seconds := 59; minutes := 99 |}) = {| seconds := 0; minutes := 0 |}).
Proof. apply (updateTime_variants_agree ({| seconds := 59; minutes := 99 |})); cbn; lia. Defined.

(** C10: every state reached from (0, 0) by timer ticks and resets, in
    either variant, has seconds in [0,59] and minutes in [0,99], and the
    number handed to the display, [minutes * 100 + seconds], is computed
    without overflow and lies in [0, 9959]. *)
Theorem reachable_time_in_range (t : Time) :
  Reachable Main.updateTime t \/ Reachable Task2.updateTime t ->
  (0 <= seconds t <= 59 /\ 0 <= minutes t <= 99) /\
  timeDisplay t = minutes t * 100 + seconds t /\
  0 <= timeDisplay t <= 9959.
Proof.
  intros H.
  assert (Hr : inRange t).
  { destruct H as [H|H];
      [apply Main_Reachable_inRange | apply Task2_Reachable_inRange]; exact H. }
  split; [exact Hr | apply timeDisplay_inRange; exact Hr].
Qed.

Lemma reachable_time_in_range_witness :
  (0 <= seconds {| seconds := 1; minutes := 0 |} <= 59 /\ 0 <= minutes {| seconds := 1; minutes := 0 |} <= 99) /\
  timeDisplay {| seconds := 1; minutes := 0 |} = minutes {| seconds := 1; minutes := 0 |} * 100 + seconds {| seconds := 1; minutes := 0 |} /\
  0 <= timeDisplay {| seconds := 1; minutes := 0 |} <= 9959.
Proof.
  apply (reachable_time_in_range {| seconds := 1; minutes := 0 |}).
  left.
  exact (reach_tick Main.updateTime startTime (reach_start Main.updateTime)).
Defined.

(** ** The serial protocol *)

(** C3: for every byte [b], [shiftOutMSBFirst b] performs, for each bit
    position 7 down to 0, a write of that bit to the data line followed by
    one clock pulse, and nothing else; the register therefore clocks in 8
    levels, and read most significant bit first they are [b] again. *)
Theorem shiftOutMSBFirst_round_trip (b : Z) :
  is_uint8 b ->
  shiftOutMSBFirst b = Returns tt (serialBits b) /\
  (forall data, clockedBits data 0 (serialBits b) = bitsMSBFirst b) /\
  length (bitsMSBFirst b) = 8%nat /\
  assembleMSBFirst (bitsMSBFirst b) = b.
Proof.
  intros Hb. repeat split.
  - apply shiftOutMSBFirst_trace.
  - rewrite assemble_bitsMSBFirst. apply Z.mod_small. exact Hb.
Qed.

Lemma shiftOutMSBFirst_round_trip_witness :
  shiftOutMSBFirst 0xA5 = Returns tt (serialBits 0xA5) /\
  (forall data, clockedBits data 0 (serialBits 0xA5) = bitsMSBFirst 0xA5) /\
  length (bitsMSBFirst 0xA5) = 8%nat /\
  assembleMSBFirst (bitsMSBFirst 0xA5) = 0xA5.
Proof. apply (shiftOutMSBFirst_round_trip 0xA5). unfold is_uint8. lia. Defined.

Lemma writeToShiftRegister_trace (segments digit : Z) :
  writeToShiftRegister segments digit = Returns tt (frame segments digit).
Proof.
  unfold writeToShiftRegister, frame.
  rewrite !shiftOutMSBFirst_trace. reflexivity.
Qed.

(** C2: [writeToShiftRegister s d] performs one write of 0 to the latch
    line, then the serialisation of [s], then the serialisation of [d],
    then one write of 1 to the latch line, and nothing else; between the
    two latch writes there is no latch write and the clock line makes
    exactly 16 pulses, which clock in the bits of [s] then the bits of
    [d]. *)
Theorem writeToShiftRegister_frame (s d : Z) :
  writeToShiftRegister s d =
    Returns tt ([Drive latchPin 0] ++ (serialBits s ++ serialBits d) ++ [Drive latchPin 1]) /\
  filter (onPin latchPin) (serialBits s ++ serialBits d) = [] /\
  clockEvents (serialBits s ++ serialBits d) = concat (repeat pulse 16) /\
  length (clockedBits 0 0 (serialBits s ++ serialBits d)) = 16%nat /\
  (forall data, clockedBits data 0 (serialBits s ++ serialBits d)
                = bitsMSBFirst s ++ bitsMSBFirst d).
Proof.
  repeat split.
  rewrite writeToShiftRegister_trace. unfold frame.
  cbn [app]. rewrite <- app_assoc. reflexivity.
Qed.

(** ** The pattern table *)

Lemma isDigit_cases (d : Z) :
  isDigit d ->
  d = 0 \/ d = 1 \/ d = 2 \/ d = 3 \/ d = 4 \/
  d = 5 \/ d = 6 \/ d = 7 \/ d = 8 \/ d = 9.
Proof. unfold isDigit. lia. Qed.

Ltac each_digit H :=
  apply isDigit_cases in H;
  destruct H as [->|[->|[->|[->|[->|[->|[->|[->|[->| ->]]]]]]]]].

(** The table read is in bounds exactly on the digits. *)
Lemma read_digitPattern (d : Z) :
  read digitPattern d =
    if (0 <=? d) && (d <=? 9) then Returns (patternOf d) [] else OutOfBounds d.
Proof.
  unfold read, patternOf.
  destruct (Z.ltb_spec d 0) as [Hneg|Hpos].
  - destruct (Z.leb_spec 0 d); [lia|reflexivity].
  - destruct (Z.leb_spec 0 d); [|lia]. cbn [andb].
    destruct (Z.leb_spec d 9) as [H9|H9].
    + assert (Hd : isDigit d) by (unfold isDigit; lia).
      each_digit Hd; reflexivity.
    + assert (Hlen : (length digitPattern <= Z.to_nat d)%nat) by (cbn; lia).
      apply nth_error_None in Hlen. rewrite Hlen. reflexivity.
Qed.

Lemma read_digitPattern_digit (d : Z) :
  isDigit d -> read digitPattern d = Returns (patternOf d) [].
Proof.
  unfold isDigit. intros H. rewrite read_digitPattern.
  destruct (Z.leb_spec 0 d); [|lia]. destruct (Z.leb_spec d 9); [|lia].
  reflexivity.
Qed.

Lemma patternOf_uint8 (d : Z) : isDigit d -> is_uint8 (patternOf d).
Proof. intros H. each_digit H; vm_compute; split; congruence. Qed.

(** Every stored pattern is the complement, on 8 bits, of the usual
    shape: a segment is lit exactly when its bit is 0, and the decimal
    point is off. *)
Lemma patternOf_shape (d : Z) (s : Segment) :
  isDigit d ->
  Z.testbit (patternOf d) (segmentBit s) = negb (litIn d s).
Proof. intros H. each_digit H; destruct s; reflexivity. Qed.

Lemma patternOf_decimal_off (d : Z) :
  isDigit d -> Z.testbit (patternOf d) decimalPointBit = true.
Proof. intros H. each_digit H; reflexivity. Qed.

Lemma clearDecimalPoint_bits (p i : Z) :
  is_uint8 p ->
  Z.testbit (Task2.clearDecimalPoint p) i = Z.testbit p i && negb (i =? 7).
Proof.
  unfold is_uint8, Task2.clearDecimalPoint, uint8. intros Hp.
  change 256 with (2 ^ 8).
  destruct (Z.ltb_spec i 0) as [Hneg|Hnn].
  - rewrite !Z.testbit_neg_r by assumption. reflexivity.
  - destruct (Z.ltb_spec i 8) as [Hlow|Hhigh].
    + rewrite Z.mod_pow2_bits_low by lia.
      rewrite Z.land_spec, Z.lnot_spec by assumption.
      change 128 with (2 ^ 7). rewrite Z.pow2_bits_eqb by lia.
      rewrite (Z.eqb_sym 7 i). reflexivity.
    + rewrite Z.mod_pow2_bits_high by lia.
      assert (Hz : Z.testbit p i = false).
      { destruct (Z.eq_dec p 0) as [->|Hne]; [apply Z.bits_0|].
        apply Z.bits_above_log2; [lia|].
        assert (Z.log2 p < 8) by (apply Z.log2_lt_pow2; lia). lia. }
      rewrite Hz. reflexivity.
Qed.

(** ** The display sweep *)

(** The digits of a non-negative number: truncating and flooring division
    agree, and every digit is in [0,9]. *)
Lemma digitsOf_nonneg (number : Z) :
  0 <= number ->
  digitsOf number =
    [ (number / 1000) mod 10; (number / 100) mod 10;
      (number / 10) mod 10; number mod 10 ].
Proof.
  intros H. unfold digitsOf.
  rewrite !Z.quot_div_nonneg by lia.
  rewrite !Z.rem_mod_nonneg by (try apply Z.div_pos; lia).
  reflexivity.
Qed.

Lemma digitsOf_isDigit (number : Z) :
  0 <= number -> Forall isDigit (digitsOf number).
Proof.
  intros H. rewrite digitsOf_nonneg by exact H.
  unfold isDigit.
  repeat constructor; try (apply Z.mod_pos_bound; lia);
    match goal with |- ?x mod 10 <= 9 =>
      pose proof (Z.mod_pos_bound x 10); lia end.
Qed.

Lemma read_in_bounds (arr : list Z) (i v : Z) :
  0 <= i -> nth_error arr (Z.to_nat i) = Some v -> read arr i = Returns v [].
Proof.
  intros Hi Hv. unfold read. rewrite Hv.
  destruct (Z.ltb_spec i 0); [lia|reflexivity].
Qed.

Lemma bind_ret_l {A B} (a : A) (k : A -> M B) : bind (Returns a []) k = k a.
Proof. unfold bind. destruct (k a); reflexivity. Qed.

(** One turn of the display loop of src/main.cpp on a digit. *)
Lemma Main_displayLoop_step (r : nat) (i d digit : Z) (digits : list Z) :
  0 <= i ->
  nth_error digits (Z.to_nat i) = Some d ->
  nth_error digitPos (Z.to_nat i) = Some digit ->
  isDigit d ->
  Main.displayLoop (S r) i digits =
    after (frame (patternOf d) digit ++ [SleepFor 2])
          (Main.displayLoop r (i + 1) digits).
Proof.
  intros Hi Hd Hpos Hdigit.
  cbn [Main.displayLoop].
  rewrite (read_in_bounds digits i d Hi Hd), bind_ret_l.
  rewrite (read_digitPattern_digit d Hdigit), bind_ret_l.
  rewrite (read_in_bounds digitPos i digit Hi Hpos), bind_ret_l.
  rewrite writeToShiftRegister_trace.
  unfold bind, sleep_for, after.
  destruct (Main.displayLoop r (i + 1) digits); cbn [app];
    rewrite ?app_nil_l, <- ?app_assoc; reflexivity.
Qed.

Lemma Main_displayLoop_four (d0 d1 d2 d3 : Z) :
  isDigit d0 -> isDigit d1 -> isDigit d2 -> isDigit d3 ->
  Main.displayLoop 4 0 [d0; d1; d2; d3] =
    Returns tt (sweep [ (patternOf d0, 0x01); (patternOf d1, 0x02);
                        (patternOf d2, 0x04); (patternOf d3, 0x08) ]).
Proof.
  intros H0 H1 H2 H3.
  rewrite (Main_displayLoop_step 3 0 d0 0x01) by (trivial; lia).
  rewrite (Main_displayLoop_step 2 1 d1 0x02) by (trivial; lia).
  rewrite (Main_displayLoop_step 1 2 d2 0x04) by (trivial; lia).
  rewrite (Main_displayLoop_step 0 3 d3 0x08) by (trivial; lia).
  cbn [Main.displayLoop ret after sweep flat_map fst snd].
  rewrite !app_nil_r, <- !app_assoc. reflexivity.
Qed.

Lemma Task2_encode_digit (d : Z) (decimalOn : bool) :
  isDigit d -> Task2.encode d decimalOn = Returns (rendered d decimalOn) [].
Proof.
  intros H. unfold Task2.encode.
  rewrite (read_digitPattern_digit d H), bind_ret_l. reflexivity.
Qed.

(** One turn of the display loop of src/Task2/main.cpp on a digit. *)
Lemma Task2_displayLoop_step (r : nat) (i d digit : Z) (digits : list Z)
    (showDecimal : bool) (decimalPos : Z) :
  0 <= i ->
  nth_error digits (Z.to_nat i) = Some d ->
  nth_error digitPos (Z.to_nat i) = Some digit ->
  isDigit d ->
  Task2.displayLoop (S r) i digits showDecimal decimalPos =
    after (frame (rendered d (showDecimal && (i =? decimalPos))) digit ++ [SleepFor 2])
          (Task2.displayLoop r (i + 1) digits showDecimal decimalPos).
Proof.
  intros Hi Hd Hpos Hdigit.
  cbn [Task2.displayLoop].
  rewrite (read_in_bounds digits i d Hi Hd), bind_ret_l.
  rewrite (Task2_encode_digit d _ Hdigit), bind_ret_l.
  rewrite (read_in_bounds digitPos i digit Hi Hpos), bind_ret_l.
  rewrite writeToShiftRegister_trace.
  unfold bind, sleep_for, after.
  destruct (Task2.displayLoop r (i + 1) digits showDecimal decimalPos);
    cbn [app]; rewrite ?app_nil_l, <- ?app_assoc; reflexivity.
Qed.

Lemma Task2_displayLoop_four (d0 d1 d2 d3 : Z) (showDecimal : bool) (decimalPos : Z) :
  isDigit d0 -> isDigit d1 -> isDigit d2 -> isDigit d3 ->
  Task2.displayLoop 4 0 [d0; d1; d2; d3] showDecimal decimalPos =
    Returns tt (sweep [ (rendered d0 (showDecimal && (0 =? decimalPos)), 0x01);
                        (rendered d1 (showDecimal && (1 =? decimalPos)), 0x02);
                        (rendered d2 (showDecimal && (2 =? decimalPos)), 0x04);
                        (rendered d3 (showDecimal && (3 =? decimalPos)), 0x08) ]).
Proof.
  intros H0 H1 H2 H3.
  rewrite (Task2_displayLoop_step 3 0 d0 0x01) by (trivial; lia).
  rewrite (Task2_displayLoop_step 2 1 d1 0x02) by (trivial; lia).
  rewrite (Task2_displayLoop_step 1 2 d2 0x04) by (trivial; lia).
  rewrite (Task2_displayLoop_step 0 3 d3 0x08) by (trivial; lia).
  cbn [Task2.displayLoop ret after sweep flat_map fst snd Z.add Pos.add Pos.succ].
  rewrite !app_nil_r, <- !app_assoc. reflexivity.
Qed.

(** The sweep of a number whose four digits are in range, in both
    variants. *)
Lemma displayNumber_nonneg (number : Z) :
  0 <= number ->
  Main.displayNumber number =
    Returns tt (sweep [ (patternOf ((number / 1000) mod 10), 0x01);
                        (patternOf ((number / 100) mod 10), 0x02);
                        (patternOf ((number / 10) mod 10), 0x04);
                        (patternOf (number mod 10), 0x08) ]) /\
  forall showDecimal decimalPos,
    Task2.displayNumber number showDecimal decimalPos =
      Returns tt (sweep
        [ (rendered ((number / 1000) mod 10) (showDecimal && (0 =? decimalPos)), 0x01);
          (rendered ((number / 100) mod 10) (showDecimal && (1 =? decimalPos)), 0x02);
          (rendered ((number / 10) mod 10) (showDecimal && (2 =? decimalPos)), 0x04);
          (rendered (number mod 10) (showDecimal && (3 =? decimalPos)), 0x08) ]).
Proof.
  intros H.
  pose proof (digitsOf_isDigit number H) as Hd.
  unfold Main.displayNumber, Task2.displayNumber.
  rewrite digitsOf_nonneg in * by exact H.
  inversion_clear Hd as [|? ? H0 Hd1].
  inversion_clear Hd1 as [|? ? H1 Hd2].
  inversion_clear Hd2 as [|? ? H2 Hd3].
  inversion_clear Hd3 as [|? ? H3 _].
  split; [|intros showDecimal decimalPos].
  - now apply Main_displayLoop_four.
  - now apply Task2_displayLoop_four.
Qed.

Lemma patternOf_entry (d : Z) :
  isDigit d -> nth_error digitPattern (Z.to_nat d) = Some (patternOf d).
Proof. intros H. each_digit H; reflexivity. Qed.

(** C1: for every value in [0,9999], [displayNumber value] performs
    exactly four frames, for the digit positions 0..3 in that order, with
    digit-select bytes 0x01, 0x02, 0x04, 0x08 and with the table entries of
    the digits (value/1000)%10, (value/100)%10, (value/10)%10, value%10 as
    segment bytes, each followed by the 2 ms dwell; every table read is in
    bounds.  The second variant does the same when no decimal point is
    asked for. *)
Theorem displayNumber_four_writes (value : Z) :
  0 <= value <= 9999 ->
  let d0 := (value / 1000) mod 10 in
  let d1 := (value / 100) mod 10 in
  let d2 := (value / 10) mod 10 in
  let d3 := value mod 10 in
  Forall (fun d => isDigit d /\ nth_error digitPattern (Z.to_nat d) = Some (patternOf d))
         [d0; d1; d2; d3] /\
  Main.displayNumber value =
    Returns tt (sweep [ (patternOf d0, 0x01); (patternOf d1, 0x02);
                        (patternOf d2, 0x04); (patternOf d3, 0x08) ]) /\
  Task2.displayNumberDefault value = Main.displayNumber value.
Proof.
  intros Hv d0 d1 d2 d3.
  assert (H : 0 <= value) by lia.
  destruct (displayNumber_nonneg value H) as [Hmain Htask2].
  pose proof (digitsOf_isDigit value H) as Hd.
  rewrite digitsOf_nonneg in Hd by exact H.
  split; [|split].
  - eapply Forall_impl; [|exact Hd].
    intros d Hdigit. split; [exact Hdigit | now apply patternOf_entry].
  - exact Hmain.
  - unfold Task2.displayNumberDefault. rewrite Hmain, Htask2. reflexivity.
Qed.

Lemma displayNumber_four_writes_witness :
  Forall (fun d => isDigit d /\ nth_error digitPattern (Z.to_nat d) = Some (patternOf d))
         [1; 2; 3; 4] /\
  Main.displayNumber 1234 =
    Returns tt (sweep [ (patternOf 1, 0x01); (patternOf 2, 0x02);
                        (patternOf 3, 0x04); (patternOf 4, 0x08) ]) /\
  Task2.displayNumberDefault 1234 = Main.displayNumber 1234.
Proof. apply (displayNumber_four_writes 1234). lia. Defined.

(** ** The segment encoder *)

Lemma commonCathode_table :
  map commonCathode [0; 1; 2; 3; 4; 5; 6; 7; 8; 9] =
    [0x3F; 0x06; 0x5B; 0x4F; 0x66; 0x6D; 0x7D; 0x07; 0x7F; 0x6F].
Proof. reflexivity. Qed.

Lemma patternOf_complement (d : Z) :
  isDigit d -> patternOf d = uint8 (Z.lnot (commonCathode d)).
Proof. intros H. each_digit H; reflexivity. Qed.

(** C4: for every digit d in [0,9], the encoder without decimal point
    returns the table entry [digitPattern[d]], which is the 8-bit
    complement of the usual common-cathode byte of d; with the decimal
    point it returns a byte whose bit 7 is 0 where the table entry has 1,
    and whose other bits are those of the table entry. *)
Theorem encode_table_and_decimal_point (d : Z) :
  isDigit d ->
  nth_error digitPattern (Z.to_nat d) = Some (patternOf d) /\
  patternOf d = uint8 (Z.lnot (commonCathode d)) /\
  Task2.encode d false = Returns (patternOf d) [] /\
  exists q,
    Task2.encode d true = Returns q [] /\
    Z.testbit (patternOf d) 7 = true /\
    Z.testbit q 7 = false /\
    (forall i, i <> 7 -> Z.testbit q i = Z.testbit (patternOf d) i) /\
    Z.lxor q (patternOf d) = 0x80.
Proof.
  intros H.
  split; [now apply patternOf_entry|].
  split; [now apply patternOf_complement|].
  split; [now apply Task2_encode_digit|].
  exists (Task2.clearDecimalPoint (patternOf d)).
  split; [now apply Task2_encode_digit|].
  split; [now apply patternOf_decimal_off|].
  pose proof (patternOf_uint8 d H) as Hp.
  split; [|split].
  - rewrite clearDecimalPoint_bits by exact Hp.
    rewrite Z.eqb_refl. apply andb_false_r.
  - intros i Hi. rewrite clearDecimalPoint_bits by exact Hp.
    destruct (Z.eqb_spec i 7); [contradiction|apply andb_true_r].
  - each_digit H; reflexivity.
Qed.

Lemma encode_table_and_decimal_point_witness :
  nth_error digitPattern (Z.to_nat 2) = Some (patternOf 2) /\
  patternOf 2 = uint8 (Z.lnot (commonCathode 2)) /\
  Task2.encode 2 false = Returns (patternOf 2) [] /\
  exists q,
    Task2.encode 2 true = Returns q [] /\
    Z.testbit (patternOf 2) 7 = true /\
    Z.testbit q 7 = false /\
    (forall i, i <> 7 -> Z.testbit q i = Z.testbit (patternOf 2) i) /\
    Z.lxor q (patternOf 2) = 0x80.
Proof. apply (encode_table_and_decimal_point 2). unfold isDigit. lia. Defined.

(** C6: [displayNumber(245, true, 1)] performs four frames whose segment
    bytes are those of the digits 0, 2, 4, 5 in that order; the byte of
    index 1 is the table entry of 2 with bit 7 cleared, the bytes of
    indices 0, 2 and 3 are the table entries themselves, with bit 7 set. *)
Theorem displayNumber_245_decimal_at_1 :
  digitsOf 245 = [0; 2; 4; 5] /\
  Task2.displayNumber 245 true 1 =
    Returns tt (sweep [ (patternOf 0, 0x01);
                        (Task2.clearDecimalPoint (patternOf 2), 0x02);
                        (patternOf 4, 0x04);
                        (patternOf 5, 0x08) ]) /\
  [patternOf 0; Task2.clearDecimalPoint (patternOf 2); patternOf 4; patternOf 5]
    = [0xC0; 0x24; 0x99; 0x92] /\
  map (fun p => Z.testbit p 7)
      [patternOf 0; Task2.clearDecimalPoint (patternOf 2); patternOf 4; patternOf 5]
    = [true; false; true; true] /\
  (forall i, i <> 7 ->
     Z.testbit (Task2.clearDecimalPoint (patternOf 2)) i = Z.testbit (patternOf 2) i).
Proof.
  split; [reflexivity|].
  split; [vm_compute; reflexivity|].
  split; [reflexivity|].
  split; [reflexivity|].
  intros i Hi.
  rewrite clearDecimalPoint_bits by (apply patternOf_uint8; unfold isDigit; lia).
  destruct (Z.eqb_spec i 7); [contradiction|apply andb_true_r].
Qed.

(** ** Numbers outside the display range *)

(** A digit below the ten-thousands does not depend on what is above. *)
Lemma digit_mod_10000 (number k c : Z) :
  0 < k -> k * (10 * c) = 10000 ->
  (number / k) mod 10 = ((number mod 10000) / k) mod 10.
Proof.
  intros Hk Hc.
  rewrite (Z.div_mod number 10000) at 1 by lia.
  replace (10000 * (number / 10000) + number mod 10000)
    with (number mod 10000 + (number / 10000 * (10 * c)) * k)
    by (rewrite <- Hc; ring).
  rewrite Z.div_add by lia.
  replace (number / 10000 * (10 * c)) with ((number / 10000 * c) * 10) by ring.
  apply Z.mod_add. lia.
Qed.

Lemma digitsOf_mod_10000 (number : Z) :
  0 <= number -> digitsOf number = digitsOf (number mod 10000).
Proof.
  intros H.
  assert (H' : 0 <= number mod 10000) by (apply Z.mod_pos_bound; lia).
  rewrite !digitsOf_nonneg by assumption.
  rewrite (digit_mod_10000 number 1000 1) by lia.
  rewrite (digit_mod_10000 number 100 10) by lia.
  rewrite (digit_mod_10000 number 10 100) by lia.
  rewrite (Z.mod_mod_divide number 10000 10) by (exists 1000; reflexivity).
  reflexivity.
Qed.

(** C7, as the code has it: for every value above 9999, the four digits
    computed by [displayNumber] are in [0,9], so every table read is in
    bounds and the call returns; the digits are those of the four
    low-order decimal places, and the sweep is that of [value mod 10000].
    Both variants.  Negative values are left out: their remainders are
    negative. *)
Theorem displayNumber_above_9999 (value : Z) :
  9999 < value ->
  Forall isDigit (digitsOf value) /\
  digitsOf value = digitsOf (value mod 10000) /\
  (exists t, Main.displayNumber value = Returns tt t) /\
  Main.displayNumber value = Main.displayNumber (value mod 10000) /\
  (forall showDecimal decimalPos,
     (exists t, Task2.displayNumber value showDecimal decimalPos = Returns tt t) /\
     Task2.displayNumber value showDecimal decimalPos
     = Task2.displayNumber (value mod 10000) showDecimal decimalPos).
Proof.
  intros Hv.
  assert (H : 0 <= value) by lia.
  pose proof (digitsOf_mod_10000 value H) as Hmod.
  destruct (displayNumber_nonneg value H) as [Hmain Htask2].
  split; [now apply digitsOf_isDigit|].
  split; [exact Hmod|].
  split; [rewrite Hmain; eauto|].
  split.
  - unfold Main.displayNumber. rewrite Hmod. reflexivity.
  - intros showDecimal decimalPos. split.
    + rewrite Htask2. eauto.
    + unfold Task2.displayNumber. rewrite Hmod. reflexivity.
Qed.

Lemma displayNumber_above_9999_witness :
  Forall isDigit (digitsOf 12345) /\
  digitsOf 12345 = digitsOf 2345 /\
  (exists t, Main.displayNumber 12345 = Returns tt t) /\
  Main.displayNumber 12345 = Main.displayNumber 2345 /\
  (forall showDecimal decimalPos,
     (exists t, Task2.displayNumber 12345 showDecimal decimalPos = Returns tt t) /\
     Task2.displayNumber 12345 showDecimal decimalPos
     = Task2.displayNumber 2345 showDecimal decimalPos).
Proof. apply (displayNumber_above_9999 12345). lia. Defined.

Example displayNumber_10000 :
  digitsOf 10000 = [0; 0; 0; 0] /\
  Main.displayNumber 10000 = Main.displayNumber 0.
Proof. split; reflexivity. Qed.

(** C7 as stated fails on negative values: -1 is outside [0,9999], its
    last digit is [-1 % 10 = -1], and the sweep stops at the table read
    [digitPattern[-1]], outside the table, in both variants. *)
Lemma displayNumber_negative_reads_outside_table :
  ~ (0 <= -1 <= 9999) /\
  is_int32 (-1) /\
  digitsOf (-1) = [0; 0; 0; -1] /\
  ~ isDigit (-1) /\
  Main.displayNumber (-1) = OutOfBounds (-1) /\
  Task2.displayNumberDefault (-1) = OutOfBounds (-1) /\
  ~ (forall value, ~ (0 <= value <= 9999) ->
       Forall isDigit (digitsOf value) /\
       exists t, Main.displayNumber value = Returns tt t).
Proof.
  assert (Hout : ~ (0 <= -1 <= 9999)) by lia.
  split; [exact Hout|].
  split; [unfold is_int32; lia|].
  split; [reflexivity|].
  split; [unfold isDigit; lia|].
  split; [reflexivity|].
  split; [reflexivity|].
  intros Hall.
  destruct (Hall (-1) Hout) as [_ [t Ht]].
  discriminate Ht.
Qed.

(** C8, as the code has it: the table read has no range check.  It
    returns the table entry exactly on the digits 0..9, and on any other
    index it is a read outside the table, neither refused nor clamped; the
    encoder of the second variant inherits this.  The digits that
    [displayNumber] computes from a non-negative number are always in
    [0,9]. *)
Theorem digitPattern_read_unchecked (d : Z) (decimalOn : bool) :
  read digitPattern d =
    (if (0 <=? d) && (d <=? 9) then Returns (patternOf d) [] else OutOfBounds d) /\
  Task2.encode d decimalOn =
    (if (0 <=? d) && (d <=? 9) then Returns (rendered d decimalOn) []
     else OutOfBounds d) /\
  (forall number, 0 <= number -> Forall isDigit (digitsOf number)).
Proof.
  split; [apply read_digitPattern|].
  split; [|exact digitsOf_isDigit].
  unfold Task2.encode. rewrite read_digitPattern.
  destruct ((0 <=? d) && (d <=? 9)); reflexivity.
Qed.

(** C8 as stated fails: the digit 10 is not refused and not clamped, the
    table is read at index 10, outside its 10 entries; the same happens
    inside [displayNumber(-1)] with the digit -1. *)
Lemma digit_10_reads_outside_table :
  ~ isDigit 10 /\
  length digitPattern = 10%nat /\
  read digitPattern 10 = OutOfBounds 10 /\
  Task2.encode 10 false = OutOfBounds 10 /\
  Task2.encode 10 true = OutOfBounds 10 /\
  Task2.displayNumber (-1) true 1 = OutOfBounds (-1) /\
  ~ (forall d, ~ isDigit d -> forall i, read digitPattern d <> OutOfBounds i).
Proof.
  assert (Hout : ~ isDigit 10) by (unfold isDigit; lia).
  split; [exact Hout|].
  do 5 (split; [reflexivity|]).
  intros Hall.
  apply (Hall 10 Hout 10). reflexivity.
Qed.

(** ** The stopwatch on the display *)

(** Whatever ticks and resets happened, showing the time returns, and it
    is a sweep of four table patterns. *)
Lemma reachable_time_is_displayed (t : Time) :
  Reachable Main.updateTime t \/ Reachable Task2.updateTime t ->
  exists d0 d1 d2 d3,
    Forall isDigit [d0; d1; d2; d3] /\
    Main.displayNumber (timeDisplay t) =
      Returns tt (sweep [ (patternOf d0, 0x01); (patternOf d1, 0x02);
                          (patternOf d2, 0x04); (patternOf d3, 0x08) ]) /\
    Task2.displayNumberDefault (timeDisplay t) = Main.displayNumber (timeDisplay t).
Proof.
  intros H.
  assert (Hr : inRange t).
  { destruct H as [H|H];
      [apply Main_Reachable_inRange | apply Task2_Reachable_inRange]; exact H. }
  destruct (timeDisplay_inRange t Hr) as [_ Hb].
  assert (Hnn : 0 <= timeDisplay t) by lia.
  destruct (displayNumber_nonneg _ Hnn) as [Hmain Htask2].
  pose proof (digitsOf_isDigit _ Hnn) as Hd.
  rewrite digitsOf_nonneg in Hd by exact Hnn.
  do 4 eexists. split; [exact Hd|]. split; [exact Hmain|].
  unfold Task2.displayNumberDefault. rewrite Hmain, Htask2. reflexivity.
Qed.

(** ** What the display shows *)

Lemma assemble_rev_bits (b : Z) :
  assembleMSBFirst
    [ Z.b2z (Z.testbit b 7); Z.b2z (Z.testbit b 6); Z.b2z (Z.testbit b 5);
      Z.b2z (Z.testbit b 4); Z.b2z (Z.testbit b 3); Z.b2z (Z.testbit b 2);
      Z.b2z (Z.testbit b 1); Z.b2z (Z.testbit b 0) ] = b mod 256.
Proof. exact (assemble_bitsMSBFirst b). Qed.

(** A frame puts its two bytes on the outputs, once, when it ends. *)
Lemma latched_frame (r : Register) (s d : Z) (t : Trace) :
  clockLine r = 0 ->
  exists r',
    clockLine r' = 0 /\
    latched r (frame s d ++ SleepFor 2 :: t) = (s mod 256, d mod 256) :: latched r' t.
Proof.
  destruct r as [data clock latch bits]. cbn [clockLine].
  intros ->.
  eexists (mkRegister _ 0 _ _). split; [reflexivity|].
  unfold frame, serialBits, bitPositions, sendBit.
  cbn [flat_map app latched registerStep risingEdge
       dataLine clockLine latchLine shifted Z.eqb andb negb].
  unfold outputs.
  cbn [shifted firstn skipn rev app].
  rewrite !assemble_rev_bits.
  reflexivity.
Qed.

(** The register shows exactly the writes of a sweep, in order. *)
Lemma latched_sweep (writes : list (Z * Z)) :
  Forall isWrite writes ->
  forall r, clockLine r = 0 -> latched r (sweep writes) = writes.
Proof.
  induction 1 as [|[s d] ws [Hs Hd] _ IH]; intros r Hr.
  - reflexivity.
  - cbn [sweep flat_map fst snd].
    rewrite <- app_assoc. cbn [app].
    destruct (latched_frame r s d (sweep ws) Hr) as [r' [Hr' Heq]].
    unfold sweep in Heq. rewrite Heq.
    cbn [fst snd] in Hs, Hd.
    rewrite !Z.mod_small by assumption.
    f_equal. apply IH. exact Hr'.
Qed.

(** From power-on, a sweep of [displayNumber] on a non-negative number
    shows the patterns of its four low digits, left to right. *)
Lemma displayNumber_shown (number : Z) :
  0 <= number ->
  exists t,
    Main.displayNumber number = Returns tt t /\
    latched powerOn t =
      [ (patternOf ((number / 1000) mod 10), 0x01);
        (patternOf ((number / 100) mod 10), 0x02);
        (patternOf ((number / 10) mod 10), 0x04);
        (patternOf (number mod 10), 0x08) ].
Proof.
  intros H.
  destruct (displayNumber_nonneg number H) as [Hmain _].
  pose proof (digitsOf_isDigit number H) as Hd.
  rewrite digitsOf_nonneg in Hd by exact H.
  eexists. split; [exact Hmain|].
  apply latched_sweep; [|reflexivity].
  inversion_clear Hd as [|? ? H0 Hd1].
  inversion_clear Hd1 as [|? ? H1 Hd2].
  inversion_clear Hd2 as [|? ? H2 Hd3].
  inversion_clear Hd3 as [|? ? H3 _].
  unfold isWrite, is_uint8.
  repeat constructor; cbn [fst snd]; try lia;
    apply patternOf_uint8; assumption.
Qed.

(** * Further properties of the code *)

(** ** The stopwatch as a counter of seconds *)

Lemma ofCount_countOf (t : Time) : inRange t -> ofCount (countOf t) = t.
Proof.
  destruct t as [s m]. unfold inRange, ofCount, countOf. cbn [seconds minutes].
  intros [Hs Hm].
  f_equal; Z.div_mod_to_equations; lia.
Qed.

Lemma ofCount_inRange (c : Z) : inRange (ofCount c).
Proof.
  unfold inRange, ofCount. cbn [seconds minutes].
  pose proof (Z.mod_pos_bound c 60). pose proof (Z.mod_pos_bound (c / 60) 100).
  lia.
Qed.

Lemma tickRule_ofCount (c : Z) : tickRule (ofCount c) = ofCount (c + 1).
Proof.
  unfold tickRule, ofCount. cbn [seconds minutes].
  destruct (Z.eqb_spec (c mod 60) 59) as [H59|H59].
  - destruct (Z.eqb_spec ((c / 60) mod 100) 99) as [H99|H99];
      f_equal; Z.div_mod_to_equations; lia.
  - f_equal; Z.div_mod_to_equations; lia.
Qed.

Lemma ticks_succ (tick : Time -> Time) (n : N) (t : Time) :
  ticks tick (N.succ n) t = tick (ticks tick n t).
Proof. unfold ticks. apply N.iter_succ. Qed.

Lemma ticks_ofCount (tick : Time -> Time) :
  (forall t, inRange t -> tick t = tickRule t) ->
  forall (n : N) (c : Z), ticks tick n (ofCount c) = ofCount (c + Z.of_N n).
Proof.
  intros Htick n c. induction n as [|n IH] using N.peano_ind.
  - cbn. now rewrite Z.add_0_r.
  - rewrite ticks_succ, IH, Htick by apply ofCount_inRange.
    rewrite tickRule_ofCount. f_equal. lia.
Qed.

(** X1: the stopwatch counts seconds modulo 6000.  From any state with
    seconds in [0,59] and minutes in [0,99], [n] calls of [updateTime]
    (either variant) lead to the state that stands for the old number of
    seconds plus [n]: seconds are that number mod 60, minutes are its
    quotient by 60, mod 100. *)
Theorem ticks_add_seconds (t : Time) (n : N) :
  inRange t ->
  let total := minutes t * 60 + seconds t + Z.of_N n in
  ticks Main.updateTime n t
    = {| seconds := total mod 60; minutes := (total / 60) mod 100 |} /\
  ticks Task2.updateTime n t
    = {| seconds := total mod 60; minutes := (total / 60) mod 100 |}.
Proof.
  intros Hr total.
  rewrite <- (ofCount_countOf t Hr) at 1 2.
  rewrite (ticks_ofCount Main.updateTime Main_updateTime_rule).
  rewrite (ticks_ofCount Task2.updateTime Task2_updateTime_rule).
  split; reflexivity.
Qed.

Lemma ticks_add_seconds_witness :
  ticks Main.updateTime 45 {| seconds := 30; minutes := 2 |}
    = {| seconds := 15; minutes := 3 |} /\
  ticks Task2.updateTime 45 {| seconds := 30; minutes := 2 |}
    = {| seconds := 15; minutes := 3 |}.
Proof.
  apply (ticks_add_seconds {| seconds := 30; minutes := 2 |} 45).
  unfold inRange. cbn. lia.
Defined.

Lemma ofCount_eq_iff (a b : Z) :
  ofCount a = ofCount b <-> a mod 6000 = b mod 6000.
Proof.
  unfold ofCount. split.
  - intros H. injection H as Hs Hm.
    Z.div_mod_to_equations. lia.
  - intros H. f_equal; Z.div_mod_to_equations; lia.
Qed.

(** X2: the stopwatch tells elapsed times apart exactly up to 6000
    seconds.  From 00:00, [n] ticks and [m] ticks give the same state if
    and only if [n] and [m] are equal modulo 6000; in either variant.  In
    particular the counters return to 00:00 after 6000 ticks and not
    before. *)
Theorem ticks_same_state_iff (n m : N) :
  (ticks Main.updateTime n startTime = ticks Main.updateTime m startTime
   <-> Z.of_N n mod 6000 = Z.of_N m mod 6000) /\
  (ticks Task2.updateTime n startTime = ticks Task2.updateTime m startTime
   <-> Z.of_N n mod 6000 = Z.of_N m mod 6000).
Proof.
  change startTime with (ofCount 0).
  rewrite !(ticks_ofCount Main.updateTime Main_updateTime_rule).
  rewrite !(ticks_ofCount Task2.updateTime Task2_updateTime_rule).
  cbn [Z.add]. split; apply ofCount_eq_iff.
Qed.

(** X3: outside the range of C9 the two variants part.  When a carry
    happens (seconds at 59 or above) with minutes at 100 or above,
    src/main.cpp puts minutes back to 0, while src/Task2/main.cpp keeps
    (minutes + 1) % 100; so they agree there only when minutes + 1 is a
    multiple of 100. *)
Theorem updateTime_variants_part (t : Time) :
  59 <= seconds t < 2 ^ 31 - 1 ->
  100 <= minutes t < 2 ^ 31 - 1 ->
  Main.updateTime t = {| seconds := 0; minutes := 0 |} /\
  Task2.updateTime t = {| seconds := 0; minutes := (minutes t + 1) mod 100 |} /\
  (Main.updateTime t = Task2.updateTime t <-> (minutes t + 1) mod 100 = 0).
Proof.
  destruct t as [s m]. cbn [seconds minutes]. intros Hs Hm.
  assert (HM : Main.updateTime (mkTime s m) = mkTime 0 0).
  { unfold Main.updateTime, int_add. cbn [seconds minutes].
    rewrite !int32_id by (unfold is_int32; lia).
    destruct (Z.leb_spec 60 (s + 1)); [|lia].
    destruct (Z.leb_spec 100 (m + 1)); [reflexivity|lia]. }
  assert (HT : Task2.updateTime (mkTime s m) = mkTime 0 ((m + 1) mod 100)).
  { unfold Task2.updateTime, int_add. cbn [seconds minutes].
    rewrite !int32_id by (unfold is_int32; lia).
    destruct (Z.leb_spec 60 (s + 1)); [|lia].
    rewrite Z.rem_mod_nonneg by lia. reflexivity. }
  rewrite HM, HT. repeat split.
  - intros H. injection H as H. symmetry. exact H.
  - intros H. rewrite H. reflexivity.
Qed.

Lemma updateTime_variants_part_witness :
  Main.updateTime {| seconds := 59; minutes := 150 |}
    = {| seconds := 0; minutes := 0 |} /\
  Task2.updateTime {| seconds := 59; minutes := 150 |}
    = {| seconds := 0; minutes := 51 |} /\
  (Main.updateTime {| seconds := 59; minutes := 150 |}
   = Task2.updateTime {| seconds := 59; minutes := 150 |}
   <-> 51 = 0).
Proof.
  apply (updateTime_variants_part {| seconds := 59; minutes := 150 |}); cbn; lia.
Defined.

(** ** Digits of any number *)

Lemma isDigitb_true (d : Z) : isDigitb d = true <-> isDigit d.
Proof. unfold isDigit, isDigitb. lia. Qed.

Lemma isDigitb_false (d : Z) : isDigitb d = false <-> ~ isDigit d.
Proof. unfold isDigit, isDigitb. lia. Qed.

(** X4: the four digits put together again are the number, up to the
    ten-thousands: [d0*1000 + d1*100 + d2*10 + d3] is the truncating
    remainder of the number by 10000, whatever its sign; so it is the
    number itself on [0,9999]. *)
Theorem digitsOf_valueOf (number : Z) :
  valueOf (digitsOf number) = Z.rem number 10000 /\
  (0 <= number <= 9999 -> valueOf (digitsOf number) = number).
Proof.
  assert (H : valueOf (digitsOf number) = Z.rem number 10000).
  { unfold valueOf, digitsOf. cbn [fold_left].
    Z.quot_rem_to_equations. lia. }
  split; [exact H|].
  intros Hr. rewrite H. apply Z.rem_small. lia.
Qed.

(** ** The sweep on any four digits *)

Lemma read_digitPattern_stop (d : Z) :
  isDigitb d = false -> read digitPattern d = OutOfBounds d.
Proof.
  intros H. rewrite read_digitPattern. fold (isDigitb d). rewrite H. reflexivity.
Qed.

Lemma Main_displayLoop_stop (r : nat) (i d : Z) (digits : list Z) :
  0 <= i ->
  nth_error digits (Z.to_nat i) = Some d ->
  isDigitb d = false ->
  Main.displayLoop (S r) i digits = OutOfBounds d.
Proof.
  intros Hi Hd Hstop. cbn [Main.displayLoop].
  rewrite (read_in_bounds digits i d Hi Hd), bind_ret_l.
  rewrite (read_digitPattern_stop d Hstop). reflexivity.
Qed.

Lemma Task2_displayLoop_stop (r : nat) (i d : Z) (digits : list Z)
    (showDecimal : bool) (decimalPos : Z) :
  0 <= i ->
  nth_error digits (Z.to_nat i) = Some d ->
  isDigitb d = false ->
  Task2.displayLoop (S r) i digits showDecimal decimalPos = OutOfBounds d.
Proof.
  intros Hi Hd Hstop. cbn [Task2.displayLoop].
  rewrite (read_in_bounds digits i d Hi Hd), bind_ret_l.
  unfold Task2.encode.
  rewrite (read_digitPattern_stop d Hstop). reflexivity.
Qed.

(** The outcome of a sweep of the second variant on four digits: it stops
    at the first one, from the left, that is not in [0,9]. *)
Lemma Task2_displayLoop_any (d0 d1 d2 d3 : Z) (showDecimal : bool) (decimalPos : Z) :
  Task2.displayLoop 4 0 [d0; d1; d2; d3] showDecimal decimalPos =
    match find (fun d => negb (isDigitb d)) [d0; d1; d2; d3] with
    | Some d => OutOfBounds d
    | None =>
        Returns tt
          (sweep (combine (patternsOf [d0; d1; d2; d3] showDecimal decimalPos)
                          digitPos))
    end.
Proof.
  cbn [find].
  destruct (isDigitb d0) eqn:E0; cbn [negb];
    [apply isDigitb_true in E0
    |now apply Task2_displayLoop_stop; [lia|reflexivity|]].
  rewrite (Task2_displayLoop_step 3 0 d0 0x01) by (trivial; lia).
  destruct (isDigitb d1) eqn:E1; cbn [negb];
    [apply isDigitb_true in E1
    |now rewrite (Task2_displayLoop_stop 2 (0 + 1) d1); [|lia|reflexivity|]].
  rewrite (Task2_displayLoop_step 2 1 d1 0x02) by (trivial; lia).
  destruct (isDigitb d2) eqn:E2; cbn [negb];
    [apply isDigitb_true in E2
    |now rewrite (Task2_displayLoop_stop 1 (1 + 1) d2); [|lia|reflexivity|]].
  rewrite (Task2_displayLoop_step 1 2 d2 0x04) by (trivial; lia).
  destruct (isDigitb d3) eqn:E3; cbn [negb];
    [apply isDigitb_true in E3
    |now rewrite (Task2_displayLoop_stop 0 (2 + 1) d3); [|lia|reflexivity|]].
  rewrite (Task2_displayLoop_step 0 3 d3 0x08) by (trivial; lia).
  cbn [Task2.displayLoop ret after sweep flat_map fst snd combine map
       patternsOf digitPos].
  rewrite !app_nil_r, <- !app_assoc. reflexivity.
Qed.

(** The display loops of the two files run alike when no decimal point is
    to be shown at any of the four positions. *)
Lemma displayLoop_no_decimal (showDecimal : bool) (decimalPos : Z) (digits : list Z) :
  showDecimal = false \/ decimalPos < 0 \/ 3 < decimalPos ->
  forall (r : nat) (i : Z),
    0 <= i -> i + Z.of_nat r <= 4 ->
    Task2.displayLoop r i digits showDecimal decimalPos = Main.displayLoop r i digits.
Proof.
  intros Hoff r. induction r as [|r IH]; intros i Hi Hr; [reflexivity|].
  cbn [Task2.displayLoop Main.displayLoop].
  assert (Hflag : showDecimal && (i =? decimalPos) = false).
  { destruct Hoff as [->|Hpos]; [reflexivity|].
    destruct (Z.eqb_spec i decimalPos); [lia|apply andb_false_r]. }
  rewrite Hflag. rewrite IH by lia.
  destruct (read digits i) as [d t|j]; [|reflexivity].
  unfold Task2.encode, bind at 1 3. unfold bind at 2 5.
  destruct (read digitPattern d) as [pattern t'|j]; [|reflexivity].
  cbn [ret bind app]. rewrite app_nil_r.
  reflexivity.
Qed.

Lemma Task2_displayNumber_no_decimal (number : Z) (showDecimal : bool) (decimalPos : Z) :
  showDecimal = false \/ decimalPos < 0 \/ 3 < decimalPos ->
  Task2.displayNumber number showDecimal decimalPos = Main.displayNumber number.
Proof.
  intros Hoff. unfold Task2.displayNumber, Main.displayNumber.
  apply displayLoop_no_decimal; [exact Hoff|lia|cbn; lia].
Qed.

(** X5: the second variant's [displayNumber] is the first one's whenever
    no decimal point can be shown, that is when [showDecimal] is false or
    [decimalPos] is not one of 0..3 (as with the default arguments); for
    every number, also those on which the sweep stops. *)
Theorem displayNumber_without_decimal (number : Z) (showDecimal : bool) (decimalPos : Z) :
  showDecimal = false \/ decimalPos < 0 \/ 3 < decimalPos ->
  Task2.displayNumber number showDecimal decimalPos = Main.displayNumber number.
Proof. apply Task2_displayNumber_no_decimal. Qed.

Lemma displayNumber_without_decimal_witness :
  Task2.displayNumber 1234 true 4 = Main.displayNumber 1234.
Proof. apply (displayNumber_without_decimal 1234 true 4). right. right. lia. Defined.

Lemma displayNumber_outcome_any (number : Z) (showDecimal : bool) (decimalPos : Z) :
  Main.displayNumber number =
    match find (fun d => negb (isDigitb d)) (digitsOf number) with
    | Some d => OutOfBounds d
    | None => Returns tt (sweep (combine (map patternOf (digitsOf number)) digitPos))
    end /\
  Task2.displayNumber number showDecimal decimalPos =
    match find (fun d => negb (isDigitb d)) (digitsOf number) with
    | Some d => OutOfBounds d
    | None =>
        Returns tt
          (sweep (combine (patternsOf (digitsOf number) showDecimal decimalPos)
                          digitPos))
    end.
Proof.
  split.
  - rewrite <- (Task2_displayNumber_no_decimal number false 0) by (left; reflexivity).
    unfold Task2.displayNumber, digitsOf.
    rewrite Task2_displayLoop_any. reflexivity.
  - unfold Task2.displayNumber, digitsOf. apply Task2_displayLoop_any.
Qed.

(** X6: what [displayNumber] does on any number, in both variants.  It
    reads the table for the four digits from the left; at the first digit
    outside [0,9] it reads outside the table, after the frames of the
    digits before it; with four digits in [0,9] it returns after one frame
    and one 2 ms sleep per digit, with the select bytes of [digitPos] in
    order. *)
Theorem displayNumber_outcome (number : Z) (showDecimal : bool) (decimalPos : Z) :
  Main.displayNumber number =
    match find (fun d => negb (isDigitb d)) (digitsOf number) with
    | Some d => OutOfBounds d
    | None => Returns tt (sweep (combine (map patternOf (digitsOf number)) digitPos))
    end /\
  Task2.displayNumber number showDecimal decimalPos =
    match find (fun d => negb (isDigitb d)) (digitsOf number) with
    | Some d => OutOfBounds d
    | None =>
        Returns tt
          (sweep (combine (patternsOf (digitsOf number) showDecimal decimalPos)
                          digitPos))
    end.
Proof. apply displayNumber_outcome_any. Qed.

Lemma digitsOf_all_digits (number : Z) :
  find (fun d => negb (isDigitb d)) (digitsOf number) = None <->
  0 <= number \/ Z.rem number 10000 = 0.
Proof.
  split.
  - intros Hfind.
    assert (Hall : Forall isDigit (digitsOf number)).
    { apply Forall_forall. intros d Hin.
      apply isDigitb_true.
      pose proof (find_none _ _ Hfind d Hin) as Hd. cbn beta in Hd.
      now apply negb_false_iff in Hd. }
    unfold digitsOf, isDigit in Hall.
    inversion_clear Hall as [|? ? H0 Hall1].
    inversion_clear Hall1 as [|? ? H1 Hall2].
    inversion_clear Hall2 as [|? ? H2 Hall3].
    inversion_clear Hall3 as [|? ? H3 _].
    destruct (Z.le_gt_cases 0 number) as [Hnn|Hneg]; [left; exact Hnn|right].
    Z.quot_rem_to_equations. lia.
  - intros H.
    assert (Hall : Forall isDigit (digitsOf number)).
    { destruct H as [Hnn|Hrem]; [now apply digitsOf_isDigit|].
      unfold digitsOf, isDigit.
      repeat constructor; Z.quot_rem_to_equations; lia. }
    destruct (find _ (digitsOf number)) as [d|] eqn:Hfind; [|reflexivity].
    apply find_some in Hfind. destruct Hfind as [Hin Hbad].
    rewrite Forall_forall in Hall. apply Hall, isDigitb_true in Hin.
    rewrite Hin in Hbad. discriminate.
Qed.

(** X7: [displayNumber] returns exactly on the numbers that are
    non-negative or multiples of 10000; on every other number (the
    negative ones with a non-zero digit among the last four) it reads
    outside the pattern table.  Both variants, whatever the decimal point
    arguments. *)
Theorem displayNumber_returns_iff (number : Z) (showDecimal : bool) (decimalPos : Z) :
  ((exists t, Main.displayNumber number = Returns tt t)
   <-> 0 <= number \/ Z.rem number 10000 = 0) /\
  ((exists t, Task2.displayNumber number showDecimal decimalPos = Returns tt t)
   <-> 0 <= number \/ Z.rem number 10000 = 0).
Proof.
  destruct (displayNumber_outcome_any number showDecimal decimalPos) as [HM HT].
  rewrite HM, HT, <- digitsOf_all_digits.
  destruct (find _ (digitsOf number)) as [d|].
  - split; split; try discriminate; intros [t Ht]; discriminate.
  - split; split; eauto.
Qed.

(** ** The decimal point *)

Lemma rendered_bits (d : Z) (decimalOn : bool) :
  isDigit d ->
  Z.testbit (rendered d decimalOn) 7 = negb decimalOn /\
  Z.land (rendered d decimalOn) 0x7F = Z.land (patternOf d) 0x7F /\
  is_uint8 (rendered d decimalOn).
Proof.
  intros H. unfold is_uint8.
  each_digit H; destruct decimalOn; vm_compute; intuition congruence.
Qed.

(** X8: with [showDecimal] true, a sweep of a non-negative number shows
    the decimal point (bit 7 cleared) at the digit of index [decimalPos]
    and nowhere else, and leaves the seven segment bits of every digit as
    in the table. *)
Theorem decimal_point_only_at_decimalPos (number decimalPos : Z) :
  0 <= number ->
  exists patterns,
    Task2.displayNumber number true decimalPos
      = Returns tt (sweep (combine patterns digitPos)) /\
    map (fun p => Z.testbit p 7) patterns
      = map (fun i => negb (i =? decimalPos)) [0; 1; 2; 3] /\
    map (fun p => Z.land p 0x7F) patterns
      = map (fun d => Z.land (patternOf d) 0x7F) (digitsOf number).
Proof.
  intros H.
  exists (patternsOf (digitsOf number) true decimalPos).
  destruct (displayNumber_outcome_any number true decimalPos) as [_ HT].
  assert (Hnone : find (fun d => negb (isDigitb d)) (digitsOf number) = None)
    by (apply digitsOf_all_digits; left; exact H).
  rewrite Hnone in HT.
  split; [exact HT|].
  pose proof (digitsOf_isDigit number H) as Hd.
  unfold digitsOf in *.
  inversion_clear Hd as [|? ? H0 Hd1].
  inversion_clear Hd1 as [|? ? H1 Hd2].
  inversion_clear Hd2 as [|? ? H2 Hd3].
  inversion_clear Hd3 as [|? ? H3 _].
  unfold patternsOf. cbn [combine map fst snd andb].
  destruct (rendered_bits _ (0 =? decimalPos) H0) as [-> [-> _]].
  destruct (rendered_bits _ (1 =? decimalPos) H1) as [-> [-> _]].
  destruct (rendered_bits _ (2 =? decimalPos) H2) as [-> [-> _]].
  destruct (rendered_bits _ (3 =? decimalPos) H3) as [-> [-> _]].
  split; reflexivity.
Qed.

Lemma decimal_point_only_at_decimalPos_witness :
  exists patterns,
    Task2.displayNumber 330 true 1
      = Returns tt (sweep (combine patterns digitPos)) /\
    map (fun p => Z.testbit p 7) patterns = [true; false; true; true] /\
    map (fun p => Z.land p 0x7F) patterns
      = map (fun d => Z.land (patternOf d) 0x7F) [0; 3; 3; 0].
Proof. apply (decimal_point_only_at_decimalPos 330 1). lia. Defined.

Lemma rendered_injective (d1 d2 : Z) (on1 on2 : bool) :
  isDigit d1 -> isDigit d2 ->
  rendered d1 on1 = rendered d2 on2 -> d1 = d2 /\ on1 = on2.
Proof.
  intros H1 H2.
  each_digit H1; each_digit H2; destruct on1, on2; vm_compute;
    intros H; (split; reflexivity) || discriminate H.
Qed.

(** X9: the encoder loses nothing.  Two different digits in [0,9], or
    one digit with and without decimal point, never get the same segment
    byte from [encode]; so the displayed digit and its decimal point can
    be read back from the byte. *)
Theorem encode_injective (d1 d2 : Z) (on1 on2 : bool) :
  isDigit d1 -> isDigit d2 ->
  d1 <> d2 \/ on1 <> on2 ->
  Task2.encode d1 on1 <> Task2.encode d2 on2.
Proof.
  intros H1 H2 Hdiff.
  rewrite !Task2_encode_digit by assumption.
  intros H. injection H as H.
  destruct (rendered_injective d1 d2 on1 on2 H1 H2 H) as [Hd Hon].
  destruct Hdiff; contradiction.
Qed.

Lemma encode_injective_witness :
  Task2.encode 8 true <> Task2.encode 0 true.
Proof.
  apply (encode_injective 8 0 true true); unfold isDigit; lia.
Defined.

(** ** The main loops *)

Lemma timeDisplay_digits (t : Time) :
  inRange t ->
  0 <= timeDisplay t /\
  digitsOf (timeDisplay t) =
    [ minutes t / 10; minutes t mod 10; seconds t / 10; seconds t mod 10 ].
Proof.
  intros Hr. destruct (timeDisplay_inRange t Hr) as [Heq Hb].
  split; [lia|].
  rewrite digitsOf_nonneg by lia. rewrite Heq.
  destruct Hr as [Hs Hm].
  set (m := minutes t) in *. set (s := seconds t) in *.
  assert (H0 : ((m * 100 + s) / 1000) mod 10 = m / 10)
    by (Z.div_mod_to_equations; lia).
  assert (H1 : ((m * 100 + s) / 100) mod 10 = m mod 10)
    by (Z.div_mod_to_equations; lia).
  assert (H2 : ((m * 100 + s) / 10) mod 10 = s / 10)
    by (Z.div_mod_to_equations; lia).
  assert (H3 : (m * 100 + s) mod 10 = s mod 10)
    by (Z.div_mod_to_equations; lia).
  rewrite H0, H1, H2, H3. reflexivity.
Qed.

Lemma Main_displayNumber_time (t : Time) :
  inRange t ->
  Main.displayNumber (timeDisplay t) =
    Returns tt (sweep [ (patternOf (minutes t / 10), 0x01);
                        (patternOf (minutes t mod 10), 0x02);
                        (patternOf (seconds t / 10), 0x04);
                        (patternOf (seconds t mod 10), 0x08) ]).
Proof.
  intros Hr. destruct (timeDisplay_digits t Hr) as [Hnn Hd].
  destruct (displayNumber_outcome_any (timeDisplay t) false 0) as [HM _].
  assert (Hnone : find (fun d => negb (isDigitb d)) (digitsOf (timeDisplay t)) = None)
    by (apply digitsOf_all_digits; left; exact Hnn).
  rewrite Hnone, Hd in HM. exact HM.
Qed.

Lemma Main_mainLoopTurn_time (s1 : Z) (t : Time) :
  inRange t ->
  let shown := if s1 =? 0 then {| seconds := 0; minutes := 0 |} else t in
  Main.mainLoopTurn s1 t =
    Returns shown
      ((if s1 =? 0 then [SleepFor 200] else []) ++
       sweep [ (patternOf (minutes shown / 10), 0x01);
               (patternOf (minutes shown mod 10), 0x02);
               (patternOf (seconds shown / 10), 0x04);
               (patternOf (seconds shown mod 10), 0x08) ]).
Proof.
  intros Hr shown. unfold Main.mainLoopTurn.
  assert (Hshown : inRange shown).
  { unfold shown. destruct (s1 =? 0); [exact startTime_inRange|exact Hr]. }
  pose proof (Main_displayNumber_time shown Hshown) as Hsweep.
  unfold shown in *. clear shown.
  destruct (s1 =? 0); cbv zeta; unfold reset.
  - unfold bind at 2. cbn [sleep_for ret app].
    unfold bind at 1. rewrite Hsweep.
    cbn [bind ret app]. rewrite app_nil_r. reflexivity.
  - unfold ret at 1. rewrite bind_ret_l, Hsweep.
    cbn [bind ret app]. rewrite app_nil_r. reflexivity.
Qed.



Lemma run_inRange (inputs : list Input) :
  forall t, inRange t ->
  exists t' trace, run inputs t = Returns t' trace /\ inRange t'.
Proof.
  induction inputs as [|[|s1] rest IH]; intros t Hr.
  - exists t, []. split; [reflexivity|exact Hr].
  - cbn [run]. apply IH.
    rewrite Main_updateTime_rule by exact Hr. now apply tickRule_inRange.
  - cbn [run]. rewrite (Main_mainLoopTurn_time s1 t Hr). cbv zeta.
    set (shown := if s1 =? 0 then _ else t).
    assert (Hshown : inRange shown).
    { unfold shown. destruct (s1 =? 0); [exact startTime_inRange|exact Hr]. }
    destruct (IH shown Hshown) as [t' [trace [Hrun Ht']]].
    unfold bind. rewrite Hrun. eauto.
Qed.

(** X11: the program of src/main.cpp never reads outside its tables.
    Whatever the order of timer ticks and main-loop turns, and whatever
    the reset button reads at each turn, a run that starts with counters
    in range (as at 00:00) returns, with counters in range. *)
Theorem run_never_out_of_bounds (inputs : list Input) (t : Time) :
  inRange t ->
  exists t' trace, run inputs t = Returns t' trace /\ inRange t'.
Proof. apply run_inRange. Qed.

Lemma run_never_out_of_bounds_witness :
  exists t' trace,
    run [LoopTurn 1; TimerTick; LoopTurn 0; TimerTick; LoopTurn 1] startTime
      = Returns t' trace /\ inRange t'.
Proof.
  apply (run_never_out_of_bounds
           [LoopTurn 1; TimerTick; LoopTurn 0; TimerTick; LoopTurn 1] startTime).
  exact startTime_inRange.
Defined.

Lemma bind_ext {A B} (m : M A) (k1 k2 : A -> M B) :
  (forall a, k1 a = k2 a) -> bind m k1 = bind m k2.
Proof. intros H. destruct m as [a t|i]; cbn; [rewrite H|]; reflexivity. Qed.

(** X12: with the mode button S3 high, a turn of the main loop of
    src/Task2/main.cpp is a turn of the main loop of src/main.cpp: same
    counters afterwards, same pin writes and sleeps, same outcome;
    whatever the voltage sample and the counters are. *)
Theorem Task2_turn_is_Main_turn (s1 s3 voltageScaled : Z) (t : Time) :
  s3 <> 0 ->
  Task2.mainLoopTurn s1 s3 voltageScaled t = Main.mainLoopTurn s1 t.
Proof.
  intros Hs3. unfold Task2.mainLoopTurn, Main.mainLoopTurn.
  destruct (Z.eqb_spec s3 0) as [E|_]; [contradiction|].
  apply bind_ext. intros shown. cbv zeta.
  unfold Task2.displayNumberDefault.
  rewrite Task2_displayNumber_no_decimal by (left; reflexivity).
  reflexivity.
Qed.

Lemma Task2_turn_is_Main_turn_witness :
  Task2.mainLoopTurn 0 1 245 {| seconds := 34; minutes := 12 |}
  = Main.mainLoopTurn 0 {| seconds := 34; minutes := 12 |}.
Proof.
  apply (Task2_turn_is_Main_turn 0 1 245 {| seconds := 34; minutes := 12 |}).
  lia.
Defined.

(** X13: with the mode button S3 low, a turn of the main loop of
    src/Task2/main.cpp shows the scaled voltage as 0X.XX.  For a sample in
    [0,999] the turn returns and its four segment bytes are: the entry of
    0, the entry of the hundreds digit with the decimal point lit, the
    entry of the tens digit, the entry of the units digit.  The counters
    are not shown; they are only reset when S1 is low. *)
Theorem Task2_turn_shows_voltage (s1 voltageScaled : Z) (t : Time) :
  0 <= voltageScaled <= 999 ->
  Task2.mainLoopTurn s1 0 voltageScaled t =
    Returns (if s1 =? 0 then {| seconds := 0; minutes := 0 |} else t)
      ((if s1 =? 0 then [SleepFor 200] else []) ++
       sweep [ (patternOf 0, 0x01);
               (Task2.clearDecimalPoint (patternOf (voltageScaled / 100)), 0x02);
               (patternOf ((voltageScaled / 10) mod 10), 0x04);
               (patternOf (voltageScaled mod 10), 0x08) ]).
Proof.
  intros Hv.
  assert (Hnn : 0 <= voltageScaled) by lia.
  destruct (displayNumber_nonneg voltageScaled Hnn) as [_ Hsweep].
  specialize (Hsweep true 1).
  replace ((voltageScaled / 1000) mod 10) with 0 in Hsweep
    by (Z.div_mod_to_equations; lia).
  replace ((voltageScaled / 100) mod 10) with (voltageScaled / 100) in Hsweep
    by (Z.div_mod_to_equations; lia).
  cbn [andb Z.eqb Pos.eqb rendered] in Hsweep.
  unfold Task2.mainLoopTurn. cbn [Z.eqb]. cbv zeta. unfold reset.
  destruct (s1 =? 0).
  - unfold bind at 2. cbn [sleep_for ret app].
    unfold bind at 1. rewrite Hsweep.
    cbn [bind ret app]. rewrite app_nil_r. reflexivity.
  - unfold ret at 1. rewrite bind_ret_l, Hsweep.
    cbn [bind ret app]. rewrite app_nil_r. reflexivity.
Qed.

Lemma Task2_turn_shows_voltage_witness :
  Task2.mainLoopTurn 1 0 245 {| seconds := 34; minutes := 12 |} =
    Returns {| seconds := 34; minutes := 12 |}
      (sweep [ (patternOf 0, 0x01);
               (Task2.clearDecimalPoint (patternOf 2), 0x02);
               (patternOf 4, 0x04);
               (patternOf 5, 0x08) ]).
Proof.
  apply (Task2_turn_shows_voltage 1 245 {| seconds := 34; minutes := 12 |}).
  lia.
Defined.

(** ** Timing and line discipline of a sweep *)

Lemma duration_app (t1 t2 : Trace) :
  duration (t1 ++ t2) = duration t1 + duration t2.
Proof.
  induction t1 as [|[pin level|ms] t1 IH]; cbn [app duration];
    [reflexivity|exact IH|rewrite IH; lia].
Qed.

Lemma duration_frame (s d : Z) : duration (frame s d) = 0.
Proof. reflexivity. Qed.

Lemma duration_sweep (writes : list (Z * Z)) :
  duration (sweep writes) = 2 * Z.of_nat (length writes).
Proof.
  induction writes as [|[s d] ws IH]; [reflexivity|].
  cbn [sweep flat_map fst snd length].
  rewrite !duration_app, duration_frame. fold (sweep ws). rewrite IH.
  cbn [duration]. lia.
Qed.

Lemma clocksUnderLowLatch_app (latch : Z) (t1 t2 : Trace) :
  clocksUnderLowLatch latch (t1 ++ t2) =
    clocksUnderLowLatch latch t1 && clocksUnderLowLatch (latchAfter latch t1) t2.
Proof.
  revert latch. induction t1 as [|[[| |] level|ms] t1 IH]; intros latch;
    cbn [app clocksUnderLowLatch latchAfter]; rewrite ?IH;
    try reflexivity.
  now rewrite andb_assoc.
Qed.

Lemma latchAfter_app (latch : Z) (t1 t2 : Trace) :
  latchAfter latch (t1 ++ t2) = latchAfter (latchAfter latch t1) t2.
Proof.
  revert latch. induction t1 as [|[[| |] level|ms] t1 IH]; intros latch;
    cbn [app latchAfter]; rewrite ?IH; reflexivity.
Qed.

Lemma frame_discipline (latch s d : Z) :
  clocksUnderLowLatch latch (frame s d) = true /\ latchAfter latch (frame s d) = 1.
Proof. split; reflexivity. Qed.

Lemma sweep_discipline (writes : list (Z * Z)) :
  forall latch,
    clocksUnderLowLatch latch (sweep writes) = true /\
    (writes <> [] -> latchAfter latch (sweep writes) = 1).
Proof.
  induction writes as [|[s d] ws IH]; intros latch.
  - split; [reflexivity|congruence].
  - cbn [sweep flat_map fst snd]. fold (sweep ws).
    rewrite !clocksUnderLowLatch_app, !latchAfter_app.
    destruct (frame_discipline latch s d) as [-> ->].
    cbn [clocksUnderLowLatch latchAfter andb].
    destruct (IH 1) as [-> Hlatch].
    split; [reflexivity|]. intros _.
    destruct ws as [|w ws']; [reflexivity|].
    apply Hlatch. congruence.
Qed.

Lemma displayNumber_sweeps (number : Z) (showDecimal : bool) (decimalPos : Z) :
  0 <= number ->
  exists writesMain writesTask2,
    length writesMain = 4%nat /\ length writesTask2 = 4%nat /\
    Forall isWrite writesMain /\ Forall isWrite writesTask2 /\
    writesMain = combine (map patternOf (digitsOf number)) digitPos /\
    writesTask2 = combine (patternsOf (digitsOf number) showDecimal decimalPos) digitPos /\
    Main.displayNumber number = Returns tt (sweep writesMain) /\
    Task2.displayNumber number showDecimal decimalPos = Returns tt (sweep writesTask2).
Proof.
  intros H.
  destruct (displayNumber_outcome_any number showDecimal decimalPos) as [HM HT].
  assert (Hnone : find (fun d => negb (isDigitb d)) (digitsOf number) = None)
    by (apply digitsOf_all_digits; left; exact H).
  rewrite Hnone in HM, HT.
  do 2 eexists.
  split; [|split; [|split; [|split; [|split; [reflexivity|split;
    [reflexivity|split; [exact HM|exact HT]]]]]]]; try reflexivity.
  - pose proof (digitsOf_isDigit number H) as Hd. unfold digitsOf in *.
    inversion_clear Hd as [|? ? H0 Hd1].
    inversion_clear Hd1 as [|? ? H1 Hd2].
    inversion_clear Hd2 as [|? ? H2 Hd3].
    inversion_clear Hd3 as [|? ? H3 _].
    cbn [map combine digitPos]. unfold isWrite.
    repeat constructor; cbn [fst snd]; try (unfold is_uint8; lia);
      apply patternOf_uint8; assumption.
  - pose proof (digitsOf_isDigit number H) as Hd. unfold digitsOf in *.
    inversion_clear Hd as [|? ? H0 Hd1].
    inversion_clear Hd1 as [|? ? H1 Hd2].
    inversion_clear Hd2 as [|? ? H2 Hd3].
    inversion_clear Hd3 as [|? ? H3 _].
    unfold patternsOf. cbn [map combine digitPos fst snd]. unfold isWrite.
    repeat constructor; cbn [fst snd]; try (unfold is_uint8; lia);
      apply rendered_bits; assumption.
Qed.

(** X14: a sweep takes 8 ms of sleep.  For every non-negative number,
    [displayNumber] returns after sleeping 2 ms four times, 8 ms in all,
    in both variants and whatever the decimal point arguments. *)
Theorem displayNumber_sleeps_8ms (number : Z) (showDecimal : bool) (decimalPos : Z) :
  0 <= number ->
  exists t1 t2,
    Main.displayNumber number = Returns tt t1 /\
    Task2.displayNumber number showDecimal decimalPos = Returns tt t2 /\
    duration t1 = 8 /\ duration t2 = 8 /\
    filter (fun e => negb (onPin latchPin e || onPin clockPin e || onPin dataPin e)) t1
      = repeat (SleepFor 2) 4 /\
    filter (fun e => negb (onPin latchPin e || onPin clockPin e || onPin dataPin e)) t2
      = repeat (SleepFor 2) 4.
Proof.
  intros H.
  destruct (displayNumber_sweeps number showDecimal decimalPos H)
    as [w1 [w2 [L1 [L2 [_ [_ [E1 [E2 [HM HT]]]]]]]]].
  exists (sweep w1), (sweep w2).
  split; [exact HM|]. split; [exact HT|].
  rewrite !duration_sweep, L1, L2.
  split; [reflexivity|]. split; [reflexivity|].
  subst w1 w2. unfold digitsOf, patternsOf. split; reflexivity.
Qed.

Lemma displayNumber_sleeps_8ms_witness :
  exists t1 t2,
    Main.displayNumber 9959 = Returns tt t1 /\
    Task2.displayNumber 9959 true 1 = Returns tt t2 /\
    duration t1 = 8 /\ duration t2 = 8 /\
    filter (fun e => negb (onPin latchPin e || onPin clockPin e || onPin dataPin e)) t1
      = repeat (SleepFor 2) 4 /\
    filter (fun e => negb (onPin latchPin e || onPin clockPin e || onPin dataPin e)) t2
      = repeat (SleepFor 2) 4.
Proof. apply (displayNumber_sleeps_8ms 9959 true 1). lia. Defined.

(** X15: [writeToShiftRegister] never moves the clock line while the
    latch line is high, and leaves the latch line high; whatever the two
    bytes are and whatever level the latch line had before. *)
Theorem writeToShiftRegister_clocks_under_low_latch (segments digit latch : Z) :
  exists t,
    writeToShiftRegister segments digit = Returns tt t /\
    clocksUnderLowLatch latch t = true /\
    latchAfter latch t = 1.
Proof.
  exists (frame segments digit).
  split; [apply writeToShiftRegister_trace|apply frame_discipline].
Qed.

(** X16: during a whole sweep of a non-negative number no clock write
    happens while the latch line is high, so the register outputs never
    show a byte that is half shifted in; the sweep ends with the latch
    line high.  Both variants, from any level of the latch line. *)
Theorem displayNumber_clocks_under_low_latch
    (number : Z) (showDecimal : bool) (decimalPos latch : Z) :
  0 <= number ->
  exists t1 t2,
    Main.displayNumber number = Returns tt t1 /\
    Task2.displayNumber number showDecimal decimalPos = Returns tt t2 /\
    clocksUnderLowLatch latch t1 = true /\ latchAfter latch t1 = 1 /\
    clocksUnderLowLatch latch t2 = true /\ latchAfter latch t2 = 1.
Proof.
  intros H.
  destruct (displayNumber_sweeps number showDecimal decimalPos H)
    as [w1 [w2 [L1 [L2 [_ [_ [_ [_ [HM HT]]]]]]]]].
  exists (sweep w1), (sweep w2).
  split; [exact HM|]. split; [exact HT|].
  destruct (sweep_discipline w1 latch) as [C1 A1].
  destruct (sweep_discipline w2 latch) as [C2 A2].
  repeat split; try assumption.
  - apply A1. intros ->. discriminate L1.
  - apply A2. intros ->. discriminate L2.
Qed.

Lemma displayNumber_clocks_under_low_latch_witness :
  exists t1 t2,
    Main.displayNumber 1234 = Returns tt t1 /\
    Task2.displayNumber 1234 true 1 = Returns tt t2 /\
    clocksUnderLowLatch 1 t1 = true /\ latchAfter 1 t1 = 1 /\
    clocksUnderLowLatch 1 t2 = true /\ latchAfter 1 t2 = 1.
Proof. apply (displayNumber_clocks_under_low_latch 1234 true 1 1). lia. Defined.

(** ** The register outputs *)

Lemma latched_frame_then (r : Register) (s d : Z) (t : Trace) :
  clockLine r = 0 ->
  exists r',
    clockLine r' = 0 /\
    latched r (frame s d ++ t) = (s mod 256, d mod 256) :: latched r' t.
Proof.
  destruct r as [data clock latch bits]. cbn [clockLine].
  intros ->.
  eexists (mkRegister _ 0 _ _). split; [reflexivity|].
  unfold frame, serialBits, bitPositions, sendBit.
  cbn [flat_map app latched registerStep risingEdge
       dataLine clockLine latchLine shifted Z.eqb andb negb].
  unfold outputs.
  cbn [shifted firstn skipn rev app].
  rewrite !assemble_rev_bits.
  reflexivity.
Qed.

(** X17: one call of [writeToShiftRegister] with two bytes changes the
    register outputs exactly once, to these two bytes (segments on the
    far register, digit select on the near one); whatever the data and
    latch lines and the register contents were before, provided the clock
    line is low, as every call leaves it. *)
Theorem writeToShiftRegister_outputs (r : Register) (segments digit : Z) :
  clockLine r = 0 ->
  is_uint8 segments -> is_uint8 digit ->
  exists t,
    writeToShiftRegister segments digit = Returns tt t /\
    latched r t = [(segments, digit)].
Proof.
  intros Hr Hs Hd. exists (frame segments digit).
  split; [apply writeToShiftRegister_trace|].
  destruct (latched_frame_then r segments digit [] Hr) as [r' [_ Heq]].
  rewrite app_nil_r in Heq. rewrite Heq.
  unfold is_uint8 in *. rewrite !Z.mod_small by assumption. reflexivity.
Qed.

Lemma writeToShiftRegister_outputs_witness :
  exists t,
    writeToShiftRegister 0xA4 0x02 = Returns tt t /\
    latched (mkRegister 1 0 1 [1; 0; 1]) t = [(0xA4, 0x02)].
Proof.
  apply (writeToShiftRegister_outputs (mkRegister 1 0 1 [1; 0; 1]) 0xA4 0x02);
    unfold is_uint8; cbn; lia.
Defined.

(** X18: during a sweep of a non-negative number the register outputs
    take exactly four values, in order: the segment byte of each digit
    from the left, paired with the select byte 0x01, 0x02, 0x04, 0x08 of
    its position; in both variants, from any register state with the clock
    line low. *)
Theorem displayNumber_outputs
    (r : Register) (number : Z) (showDecimal : bool) (decimalPos : Z) :
  clockLine r = 0 ->
  0 <= number ->
  exists t1 t2,
    Main.displayNumber number = Returns tt t1 /\
    Task2.displayNumber number showDecimal decimalPos = Returns tt t2 /\
    latched r t1 = combine (map patternOf (digitsOf number)) [0x01; 0x02; 0x04; 0x08] /\
    latched r t2 = combine (patternsOf (digitsOf number) showDecimal decimalPos)
                           [0x01; 0x02; 0x04; 0x08].
Proof.
  intros Hr H.
  destruct (displayNumber_sweeps number showDecimal decimalPos H)
    as [w1 [w2 [_ [_ [W1 [W2 [E1 [E2 [HM HT]]]]]]]]].
  exists (sweep w1), (sweep w2).
  split; [exact HM|]. split; [exact HT|].
  rewrite (latched_sweep w1 W1 r Hr), (latched_sweep w2 W2 r Hr).
  subst w1 w2. split; reflexivity.
Qed.

Lemma displayNumber_outputs_witness :
  exists t1 t2,
    Main.displayNumber 1234 = Returns tt t1 /\
    Task2.displayNumber 1234 true 1 = Returns tt t2 /\
    latched powerOn t1 = [(0xF9, 0x01); (0xA4, 0x02); (0xB0, 0x04); (0x99, 0x08)] /\
    latched powerOn t2 = [(0xF9, 0x01); (0x24, 0x02); (0xB0, 0x04); (0x99, 0x08)].
Proof.
  apply (displayNumber_outputs powerOn 1234 true 1); [reflexivity|lia].
Defined.
